(** * SmartAPITest: the operation normaliser and the test runner

    A shallow embedding of [smartapitest.py]: [analyze_spec] (the walk over
    the resolved OpenAPI document), [run_test_case] (request preparation,
    the HTTP call, the verdict) and the coordinating loops of [main].

    Python objects are modelled as JSON-shaped values (dictionaries
    keyed by strings, a [str] held as its UTF-8 encoding).  Dictionaries keep their insertion order, so they
    are association lists; exceptions are explicit outcomes; a mutable
    object the caller owns lives in the state a computation threads; the
    libraries the script calls without defining them (requests, the case
    generator, the [str] built-ins) are the fields of a record of
    externals. *)

From Stdlib Require Import ZArith List String Ascii Bool Lia.
From Stdlib Require Import Floats.SpecFloat.
Import ListNotations.

Local Open Scope string_scope.
Local Open Scope list_scope.
Local Set Warnings "-register-all".

(* ================================================================== *)
(** ** Python values *)
(* ================================================================== *)

(** What [json.load] / a YAML loader can return.  [int] is unbounded;
    a [float] is kept as the IEEE value it denotes. *)
Inductive pyval : Type :=
| PNone
| PBool (b : bool)
| PInt (z : Z)
| PFloat (f : spec_float)
| PStr (s : string)
| PList (l : list pyval)
| PDict (d : list (string * pyval)).

(** A dictionary with string keys, in insertion order. *)
Definition dict : Type := list (string * pyval).

(** The exceptions the modelled code can meet.  All of them derive from
    [Exception]; each carries what [str(e)] needs (the interpreter's
    messages are worded as CPython 3.11 words them). *)
Inductive pyexn : Type :=
| KeyError (key_repr : string)
| IndexError (msg : string)
| TypeError (msg : string)
| AttributeError (msg : string)
| LibraryError (msg : string).

(** [str(e)]: a [KeyError] prints the repr of its key. *)
Definition str_of_exn (e : pyexn) : string :=
  match e with
  | KeyError k => k
  | IndexError m | TypeError m | AttributeError m | LibraryError m => m
  end.

Inductive outcome (A : Type) : Type :=
| Returned (a : A)
| Raised (e : pyexn).
Arguments Returned {A} a.
Arguments Raised {A} e.

Definition obind {A B : Type} (m : outcome A) (k : A -> outcome B) : outcome B :=
  match m with
  | Returned a => k a
  | Raised e => Raised e
  end.

Declare Scope outcome_scope.
Delimit Scope outcome_scope with outcome.
Notation "x <- m ;; k" := (obind m (fun x => k))
  (at level 61, m at next level, right associativity) : outcome_scope.

(* ------------------------------------------------------------------ *)
(** *** Dictionaries *)

Fixpoint dict_get (k : string) (d : dict) : option pyval :=
  match d with
  | [] => None
  | (k', v) :: rest => if String.eqb k k' then Some v else dict_get k rest
  end.

Definition dict_mem (k : string) (d : dict) : bool :=
  match dict_get k d with Some _ => true | None => false end.

(** [d[k] = v]: an existing key keeps its position, a new key goes last. *)
Fixpoint dict_set (k : string) (v : pyval) (d : dict) : dict :=
  match d with
  | [] => [(k, v)]
  | (k', v') :: rest =>
      if String.eqb k k' then (k', v) :: rest else (k', v') :: dict_set k v rest
  end.

(* ------------------------------------------------------------------ *)
(** *** The interpreter's operations on values *)

Definition type_name (v : pyval) : string :=
  match v with
  | PNone => "NoneType"
  | PBool _ => "bool"
  | PInt _ => "int"
  | PFloat _ => "float"
  | PStr _ => "str"
  | PList _ => "list"
  | PDict _ => "dict"
  end.

(** The repr of a key literal of the script (none of them needs escaping). *)
Definition repr_key (k : string) : string := "'" ++ k ++ "'".

(** [v[k]] with a string key [k]. *)
Definition py_getitem (v : pyval) (k : string) : outcome pyval :=
  match v with
  | PDict d =>
      match dict_get k d with
      | Some x => Returned x
      | None => Raised (KeyError (repr_key k))
      end
  | PStr _ => Raised (TypeError "string indices must be integers, not 'str'")
  | PList _ => Raised (TypeError "list indices must be integers or slices, not str")
  | _ => Raised (TypeError ("'" ++ type_name v ++ "' object is not subscriptable"))
  end.

(** [v.get(k, default)]: only a dictionary has the method. *)
Definition py_get (v : pyval) (k : string) (default : pyval) : outcome pyval :=
  match v with
  | PDict d =>
      Returned (match dict_get k d with Some x => x | None => default end)
  | _ => Raised (AttributeError ("'" ++ type_name v ++ "' object has no attribute 'get'"))
  end.

(** [v.items()], in insertion order. *)
Definition py_items (v : pyval) : outcome dict :=
  match v with
  | PDict d => Returned d
  | _ => Raised (AttributeError ("'" ++ type_name v ++ "' object has no attribute 'items'"))
  end.

Fixpoint str_contains (needle hay : string) : bool :=
  String.prefix needle hay
  || match hay with
     | EmptyString => false
     | String _ rest => str_contains needle rest
     end.

Definition is_str (s : string) (v : pyval) : bool :=
  match v with
  | PStr s' => String.eqb s' s
  | _ => false
  end.

(** [k in v] for a string [k]: key membership in a dictionary, substring
    test in a string, element membership in a list. *)
Definition py_contains (k : string) (v : pyval) : outcome bool :=
  match v with
  | PDict d => Returned (dict_mem k d)
  | PStr s => Returned (str_contains k s)
  | PList l => Returned (existsb (is_str k) l)
  | _ => Raised (TypeError ("argument of type '" ++ type_name v ++ "' is not iterable"))
  end.

Definition float_is_zero (f : spec_float) : bool :=
  match f with
  | S754_zero _ => true
  | _ => false
  end.

(** Truth value testing. *)
Definition py_truthy (v : pyval) : bool :=
  match v with
  | PNone => false
  | PBool b => b
  | PInt z => negb (Z.eqb z 0)
  | PFloat f => negb (float_is_zero f)
  | PStr s => negb (String.eqb s EmptyString)
  | PList l => match l with [] => false | _ => true end
  | PDict d => match d with [] => false | _ => true end
  end.

(** A [string] holds the UTF-8 encoding of a Python [str]; the items of
    a [str] are its characters, not its bytes.  A character is a lead
    byte with the continuation bytes ([10xxxxxx]) that follow it. *)
Definition is_continuation (c : ascii) : bool :=
  let n := nat_of_ascii c in
  Nat.leb 128 n && Nat.ltb n 192.

(** The continuation bytes a string starts with, and the characters
    after them. *)
Fixpoint utf8_split (s : string) : string * list string :=
  match s with
  | EmptyString => (EmptyString, [])
  | String c rest =>
      let (pending, groups) := utf8_split rest in
      if is_continuation c then (String c pending, groups)
      else (EmptyString, String c pending :: groups)
  end.

(** The characters of a string, in order. *)
Definition utf8_chars (s : string) : list string :=
  let (pending, groups) := utf8_split s in
  match pending with
  | EmptyString => groups
  | _ => pending :: groups
  end.

(** [v[0]]; of a [str], its first character. *)
Definition py_index0 (v : pyval) : outcome pyval :=
  match v with
  | PList (x :: _) => Returned x
  | PList [] => Raised (IndexError "list index out of range")
  | PStr s =>
      match utf8_chars s with
      | c :: _ => Returned (PStr c)
      | [] => Raised (IndexError "string index out of range")
      end
  | PDict _ => Raised (KeyError "0")
  | _ => Raised (TypeError ("'" ++ type_name v ++ "' object is not subscriptable"))
  end.

(** [v[k] = x] with a string key: the updated object, when [v] is a
    dictionary. *)
Definition py_setitem (v : pyval) (k : string) (x : pyval) : outcome pyval :=
  match v with
  | PDict d => Returned (PDict (dict_set k x d))
  | PList _ => Raised (TypeError "list indices must be integers or slices, not str")
  | _ => Raised (TypeError ("'" ++ type_name v ++ "' object does not support item assignment"))
  end.

(** Exact comparison of an integer with a float: [z == m * 2^e]. *)
Definition int_eq_float (z : Z) (f : spec_float) : bool :=
  match f with
  | S754_zero _ => Z.eqb z 0
  | S754_finite s m e =>
      let sm := if s then Z.opp (Z.pos m) else Z.pos m in
      if Z.leb 0 e then Z.eqb z (sm * 2 ^ e) else Z.eqb (z * 2 ^ (Z.opp e)) sm
  | S754_infinity _ | S754_nan => false
  end.

(** [z == v] for an [int] [z]: [bool] is a subclass of [int], numbers
    compare by value, anything else differs. *)
Definition py_eq_int (z : Z) (v : pyval) : bool :=
  match v with
  | PInt z' => Z.eqb z z'
  | PBool b => Z.eqb z (if b then 1 else 0)
  | PFloat f => int_eq_float z f
  | _ => false
  end.

(* ================================================================== *)
(** ** [analyze_spec] *)
(* ================================================================== *)

(** The dictionary literal appended at lines 21-29: seven fixed keys. *)
Record descriptor : Type := mkDescriptor {
  d_path : string;
  d_method : string;
  d_operation_id : pyval;
  d_parameters : pyval;
  d_requestBody : pyval;
  d_responses : pyval;
  d_consumes : pyval
}.

Definition http_methods : list string := ["get"; "post"; "put"; "delete"; "patch"].

(** [method in ['get', 'post', 'put', 'delete', 'patch']]. *)
Definition recognised (method : string) : bool :=
  existsb (String.eqb method) http_methods.

Definition default_consumes : pyval := PList [PStr "application/json"].

(** Lines 20-29, for one [(method, operation)] of one path. *)
Definition describe (global_consumes : pyval) (path method : string)
    (operation : pyval) : outcome descriptor :=
  (consumes <- py_get operation "consumes" global_consumes ;;
   operation_id <- py_get operation "operationId" (PStr (method ++ "_" ++ path)) ;;
   parameters <- py_get operation "parameters" (PList []) ;;
   requestBody <- py_get operation "requestBody" (PDict []) ;;
   responses <- py_get operation "responses" (PDict []) ;;
   Returned (mkDescriptor path method operation_id parameters requestBody
               responses consumes))%outcome.

(** The inner loop (lines 17-29); [operations] is the list built so far. *)
Fixpoint analyze_methods (global_consumes : pyval) (path : string)
    (items : dict) (operations : list descriptor) : outcome (list descriptor) :=
  match items with
  | [] => Returned operations
  | (method, operation) :: rest =>
      if recognised method then
        (d <- describe global_consumes path method operation ;;
         analyze_methods global_consumes path rest (operations ++ [d]))%outcome
      else analyze_methods global_consumes path rest operations
  end.

(** The outer loop (lines 16-29). *)
Fixpoint analyze_paths (global_consumes : pyval) (items : dict)
    (operations : list descriptor) : outcome (list descriptor) :=
  match items with
  | [] => Returned operations
  | (path, path_item) :: rest =>
      (methods <- py_items path_item ;;
       operations' <- analyze_methods global_consumes path methods operations ;;
       analyze_paths global_consumes rest operations')%outcome
  end.

Definition analyze_spec (spec : pyval) : outcome (list descriptor) :=
  (global_consumes <- py_get spec "consumes" default_consumes ;;
   paths <- py_getitem spec "paths" ;;
   items <- py_items paths ;;
   analyze_paths global_consumes items [])%outcome.

(* ================================================================== *)
(** ** State and exceptions *)
(* ================================================================== *)

(** A computation that reads and writes a state [S] and returns or
    raises; what was written before a raise stays written. *)
Definition M (S A : Type) : Type := S -> outcome A * S.

Definition ret {S A : Type} (a : A) : M S A := fun s => (Returned a, s).

Definition bind {S A B : Type} (m : M S A) (k : A -> M S B) : M S B :=
  fun s =>
    match m s with
    | (Returned a, s') => k a s'
    | (Raised e, s') => (Raised e, s')
    end.

Definition lift {S A : Type} (o : outcome A) : M S A := fun s => (o, s).

Definition gets {S A : Type} (f : S -> A) : M S A := fun s => (Returned (f s), s).

Definition modify {S : Type} (f : S -> S) : M S unit := fun s => (Returned tt, f s).

(** [try: body except Exception as e: handler e]; every [pyexn] is an
    [Exception]. *)
Definition try_except {S A : Type} (body : M S A) (handler : pyexn -> M S A) : M S A :=
  fun s =>
    match body s with
    | (Returned a, s') => (Returned a, s')
    | (Raised e, s') => handler e s'
    end.

Declare Scope run_scope.
Delimit Scope run_scope with run.
Notation "x <- m ;; k" := (bind m (fun x => k))
  (at level 61, m at next level, right associativity) : run_scope.
Notation "m ;; k" := (bind m (fun _ => k))
  (at level 61, right associativity) : run_scope.

(* ================================================================== *)
(** ** What the script calls but does not define *)
(* ================================================================== *)

(** The attributes of a [requests.Response] that the script reads;
    [json] is what the call [response.json()] does. *)
Record response : Type := mkResponse {
  status_code : Z;
  text : string;
  json : outcome pyval
}.

(** Which keyword carries the body: [data=body] or [json=body]. *)
Inductive body_encoding : Type :=
| FormData
| JsonDocument.

(** The arguments of one [requests.request] call. *)
Record outbound : Type := mkOutbound {
  ob_method : string;
  ob_url : string;
  ob_headers : pyval;
  ob_encoding : body_encoding;
  ob_body : pyval
}.

(** [W] is the state of the world outside the process (the service under
    test, the case generator). *)
Record externals (W : Type) : Type := mkExternals {
  (** [requests.request(method, url, headers=..., data=|json=...)] *)
  requests_request : outbound -> W -> outcome response * W;
  (** the prompt chain of [generate_test_case]: the parsed model output *)
  chain_invoke : descriptor -> W -> outcome pyval * W;
  (** [str.lower] *)
  str_lower : string -> string;
  (** [format(v)] of a value that is not a string, inside an f-string *)
  format_other : pyval -> string
}.
Arguments requests_request {W} e.
Arguments chain_invoke {W} e.
Arguments str_lower {W} e.
Arguments format_other {W} e.

(** A replacement field [{v}] of an f-string. *)
Definition format_value {W : Type} (ext : externals W) (v : pyval) : string :=
  match v with
  | PStr s => s
  | _ => format_other ext v
  end.

(** [v.lower()]. *)
Definition py_lower {W : Type} (ext : externals W) (v : pyval) : outcome string :=
  match v with
  | PStr s => Returned (str_lower ext s)
  | _ => Raised (AttributeError ("'" ++ type_name v ++ "' object has no attribute 'lower'"))
  end.

(* ================================================================== *)
(** ** [run_test_case] *)
(* ================================================================== *)

(** The objects a call of [run_test_case] can reach: the test case and
    the operation it was given (both owned by the caller), the dictionary
    [{}] created for the default of [request.get('headers', {})], and the
    world. *)
Record run_state (W : Type) : Type := mkRunState {
  rs_test_case : pyval;
  rs_operation : descriptor;
  rs_fresh : pyval;
  rs_world : W
}.
Arguments mkRunState {W} _ _ _ _.
Arguments rs_test_case {W} r.
Arguments rs_operation {W} r.
Arguments rs_fresh {W} r.
Arguments rs_world {W} r.

(** What the local variable [headers] is bound to: the object stored
    under [test_case['request']['headers']], or the fresh dictionary. *)
Inductive headers_ref : Type :=
| InTestCase
| Fresh.

(** The object under [test_case['request']['headers']]. *)
Definition request_headers (test_case : pyval) : option pyval :=
  match test_case with
  | PDict tc =>
      match dict_get "request" tc with
      | Some (PDict request) => dict_get "headers" request
      | _ => None
      end
  | _ => None
  end.

(** The test case once the object under [request.headers] has become [h]. *)
Definition with_request_headers (h : pyval) (test_case : pyval) : pyval :=
  match test_case with
  | PDict tc =>
      match dict_get "request" tc with
      | Some (PDict request) =>
          PDict (dict_set "request" (PDict (dict_set "headers" h request)) tc)
      | _ => test_case
      end
  | _ => test_case
  end.

Section RunTestCase.
Context {W : Type} (ext : externals W).

Local Open Scope run_scope.

(** [operation['consumes']], read from the caller's object. *)
Definition load_consumes : M (run_state W) pyval :=
  gets (fun s => d_consumes (rs_operation s)).

(** [test_case[k]], read from the caller's object. *)
Definition load_item (k : string) : M (run_state W) pyval :=
  fun s => (py_getitem (rs_test_case s) k, s).

(** The object [headers] refers to ([InTestCase] is only ever made when
    the request has the key). *)
Definition deref (r : headers_ref) : M (run_state W) pyval :=
  gets (fun s =>
          match r with
          | InTestCase =>
              match request_headers (rs_test_case s) with
              | Some h => h
              | None => PNone
              end
          | Fresh => rs_fresh s
          end).

(** Replace the object [headers] refers to, where it lives. *)
Definition store (r : headers_ref) (h : pyval) : M (run_state W) unit :=
  modify (fun s =>
            match r with
            | InTestCase =>
                mkRunState (with_request_headers h (rs_test_case s))
                  (rs_operation s) (rs_fresh s) (rs_world s)
            | Fresh => mkRunState (rs_test_case s) (rs_operation s) h (rs_world s)
            end).

(** [request.get('headers', {})]: the default [{}] is created, and
    [headers] is bound to the request's own object when it has one. *)
Definition get_headers (request : pyval) : M (run_state W) headers_ref :=
  match request with
  | PDict r =>
      modify (fun s => mkRunState (rs_test_case s) (rs_operation s)
                         (PDict []) (rs_world s)) ;;
      ret (match dict_get "headers" r with
           | Some _ => InTestCase
           | None => Fresh
           end)
  | _ => lift (Raised (AttributeError
                         ("'" ++ type_name request ++ "' object has no attribute 'get'")))
  end.

(** [headers[k] = v]. *)
Definition set_header (r : headers_ref) (k : string) (v : pyval)
  : M (run_state W) unit :=
  h <- deref r ;;
  h' <- lift (py_setitem h k v) ;;
  store r h'.

(** One [requests.request] call. *)
Definition send (ob : outbound) : M (run_state W) response :=
  fun s =>
    let '(r, w) := requests_request ext ob (rs_world s) in
    (r, mkRunState (rs_test_case s) (rs_operation s) (rs_fresh s) w).

(** The local variables after lines 61-69. *)
Record prepared : Type := mkPrepared {
  p_url : string;
  p_method : string;
  p_headers : headers_ref;
  p_body : pyval
}.

(** Lines 61-69: outside the [try]. *)
Definition prepare (base_url : string) : M (run_state W) prepared :=
  request <- load_item "request" ;;
  path <- lift (py_getitem request "path") ;;
  let url := (base_url ++ format_value ext path)%string in
  m <- lift (py_getitem request "method") ;;
  method <- lift (py_lower ext m) ;;
  headers <- get_headers request ;;
  body <- lift (py_get request "body" PNone) ;;
  h <- deref headers ;;
  present <- lift (py_contains "Content-Type" h) ;;
  consumes <- load_consumes ;;
  (if negb present && py_truthy consumes then
     consumes' <- load_consumes ;;
     first <- lift (py_index0 consumes') ;;
     set_header headers "Content-Type" first
   else ret tt) ;;
  ret (mkPrepared url method headers body).

(** Lines 72-75, up to the call: the arguments handed to [requests]. *)
Definition build_request (p : prepared) : M (run_state W) outbound :=
  h <- deref (p_headers p) ;;
  content_type <- lift (py_get h "Content-Type" PNone) ;;
  let encoding :=
    if is_str "application/x-www-form-urlencoded" content_type
    then FormData else JsonDocument in
  ret (mkOutbound (p_method p) (p_url p) h encoding (p_body p)).

(** Lines 77-92. *)
Definition verify (resp : response) : M (run_state W) dict :=
  let actual_status := status_code resp in
  actual_body <-
    lift (if String.eqb (text resp) EmptyString then Returned PNone else json resp) ;;
  expected_response <- load_item "expected_response" ;;
  expected_status <- lift (py_getitem expected_response "status_code") ;;
  expected_response' <- load_item "expected_response" ;;
  expected_body <- lift (py_get expected_response' "body" PNone) ;;
  test_name <- load_item "test_name" ;;
  ret [("test_name", test_name);
       ("passed", PBool (py_eq_int actual_status expected_status));
       ("expected_status", expected_status);
       ("actual_status", PInt actual_status);
       ("expected_body", expected_body);
       ("actual_body", actual_body)].

(** Lines 94-99. *)
Definition on_exception (e : pyexn) : M (run_state W) dict :=
  test_name <- load_item "test_name" ;;
  ret [("test_name", test_name);
       ("passed", PBool false);
       ("error", PStr (str_of_exn e))].

(** Request building as a whole: lines 61-69, then the arguments of
    the call. *)
Definition build (base_url : string) : M (run_state W) outbound :=
  p <- prepare base_url ;;
  build_request p.

Definition run_test_case_body (base_url : string) : M (run_state W) dict :=
  p <- prepare base_url ;;
  try_except
    (ob <- build_request p ;;
     resp <- send ob ;;
     verify resp)
    on_exception.

(** [run_test_case(base_url, test_case, operation)] in the world [w]:
    what it returns or raises, the caller's test case afterwards, and
    the world afterwards. *)
Definition run_test_case (base_url : string) (test_case : pyval)
    (operation : descriptor) (w : W) : outcome dict * pyval * W :=
  let '(r, s) := run_test_case_body base_url
                   (mkRunState test_case operation PNone w) in
  (r, rs_test_case s, rs_world s).

End RunTestCase.

(* ================================================================== *)
(** ** The loops of [main] *)
(* ================================================================== *)

(** The elements [list.extend(v)] appends: the items of a list, the keys
    of a dictionary, the characters of a string. *)
Definition chars (s : string) : list pyval := map PStr (utf8_chars s).

Definition py_iter (v : pyval) : outcome (list pyval) :=
  match v with
  | PList l => Returned l
  | PDict d => Returned (map (fun kv => PStr (fst kv)) d)
  | PStr s => Returned (chars s)
  | _ => Raised (TypeError ("'" ++ type_name v ++ "' object is not iterable"))
  end.

Section Main.
Context {W : Type} (ext : externals W).

Local Open Scope run_scope.

(** [generate_test_case(operation)]: the parsed answer of the chain. *)
Definition generate_test_case (operation : descriptor) : M W pyval :=
  chain_invoke ext operation.

(** Lines 108-112; [all_test_cases] is the list built so far. *)
Fixpoint generate_all (operations : list descriptor) (all_test_cases : list pyval)
  : M W (list pyval) :=
  match operations with
  | [] => ret all_test_cases
  | operation :: rest =>
      test_case <- generate_test_case operation ;;
      items <- lift (py_iter test_case) ;;
      generate_all rest (all_test_cases ++ items)
  end.

(** Lines 121-131 over the pairs of [zip(all_test_cases, operations)];
    an exception that leaves [run_test_case] ends the run.  What the call
    wrote into the test case stays in memory and is read by nothing. *)
Fixpoint run_all (base_url : string) (pairs : list (pyval * descriptor))
    (test_results : list dict) : M W (list dict) :=
  match pairs with
  | [] => ret test_results
  | (test_case, operation) :: rest =>
      fun w =>
        match run_test_case ext base_url test_case operation w with
        | (Returned result, _, w') =>
            run_all base_url rest (test_results ++ [result]) w'
        | (Raised e, _, w') => (Raised e, w')
        end
  end.

(** What a run leaves behind: the two lists written to
    [test_cases.json] and [test_results.json]. *)
Record report : Type := mkReport {
  all_test_cases : list pyval;
  test_results : list dict
}.

(** [main] from the resolved document on (lines 106-135, without the
    printing and the file writes). *)
Definition main (spec : pyval) (base_url : string) : M W report :=
  operations <- lift (analyze_spec spec) ;;
  cases <- generate_all operations [] ;;
  results <- run_all base_url (combine cases operations) [] ;;
  ret (mkReport cases results).

End Main.

(* ================================================================== *)
(** ** A concrete world, for running the model *)
(* ================================================================== *)

Module Demo.

Definition lower_ascii (c : ascii) : ascii :=
  let n := nat_of_ascii c in
  if (Nat.leb 65 n && Nat.leb n 90)%bool then ascii_of_nat (n + 32) else c.

Fixpoint lower (s : string) : string :=
  match s with
  | EmptyString => EmptyString
  | String c rest => String (lower_ascii c) (lower rest)
  end.

(** A world that logs every request; the service answers every request
    with [answer], the generator answers with [cases]. *)
Definition logging (answer : outbound -> outcome response)
    (cases : descriptor -> outcome pyval) : externals (list outbound) :=
  mkExternals (list outbound)
    (fun ob log => (answer ob, log ++ [ob]))
    (fun d log => (cases d, log))
    lower
    (fun _ => EmptyString).

Definition no_cases (_ : descriptor) : outcome pyval := Returned (PList []).

Definition unreachable (_ : outbound) : outcome response :=
  Raised (LibraryError "Connection refused").

Definition answers (status : Z) (body : string) (parsed : outcome pyval)
    (_ : outbound) : outcome response :=
  Returned (mkResponse status body parsed).

Definition not_json : outcome pyval :=
  Raised (LibraryError "Expecting value: line 1 column 1 (char 0)").

Definition op_json : descriptor :=
  mkDescriptor "/items" "post" (PStr "post_/items") (PList []) (PDict [])
    (PDict []) (PList [PStr "application/json"; PStr "application/xml"]).

Definition case_with (headers : option pyval) (expected : Z) : pyval :=
  PDict [("test_name", PStr "create item");
         ("request",
           PDict ([("method", PStr "POST"); ("path", PStr "/items")]
                  ++ match headers with
                     | Some h => [("headers", h)]
                     | None => []
                     end
                  ++ [("body", PDict [("a", PStr "1"); ("b", PStr "2")])]));
         ("expected_response",
           PDict [("status_code", PInt expected);
                  ("body", PDict [("id", PInt 1)])])].

(** A document with a document-level [consumes], three recognised
    operations and two that are not. *)
Definition petstore : pyval :=
  PDict [("consumes", PList [PStr "application/xml"]);
         ("paths",
           PDict [("/items",
                    PDict [("post", PDict []);
                           ("head", PDict []);
                           ("get", PDict [("operationId", PStr "listItems");
                                          ("consumes", PList [PStr "text/plain"])])]);
                  ("/health",
                    PDict [("get", PDict []); ("options", PDict [])])])].

End Demo.

(* ================================================================== *)
(** ** Reading a description *)
(* ================================================================== *)

(** The vocabulary in which the properties of [analyze_spec] are stated:
    the (path, method, operation) triples of a document in iteration
    order, and the shape a resolved document has. *)

(** The value under key [k] of a dictionary. *)
Definition field (k : string) (v : pyval) : option pyval :=
  match v with
  | PDict d => dict_get k d
  | _ => None
  end.

Definition entry : Type := (string * string * pyval)%type.
Definition e_path (e : entry) : string := fst (fst e).
Definition e_method (e : entry) : string := snd (fst e).
Definition e_operation (e : entry) : pyval := snd e.

Definition path_entries (path_and_item : string * pyval) : list entry :=
  match snd path_and_item with
  | PDict methods => map (fun mo => (fst path_and_item, fst mo, snd mo)) methods
  | _ => []
  end.

(** Every (path, method, operation), paths first, then methods. *)
Definition operation_entries (paths : dict) : list entry :=
  flat_map path_entries paths.

Definition recognised_entries (paths : dict) : list entry :=
  filter (fun e => recognised (e_method e)) (operation_entries paths).

Definition document_paths (spec : pyval) : dict :=
  match field "paths" spec with
  | Some (PDict paths) => paths
  | _ => []
  end.

Definition is_dict (v : pyval) : bool :=
  match v with
  | PDict _ => true
  | _ => false
  end.

Definition operation_ok (mo : string * pyval) : bool :=
  if recognised (fst mo) then is_dict (snd mo) else true.

Definition path_item_ok (pi : string * pyval) : bool :=
  match snd pi with
  | PDict methods => forallb operation_ok methods
  | _ => false
  end.

(** A resolved description: a mapping with a [paths] mapping whose items
    are mappings, every recognised method holding an operation object. *)
Definition description_ok (spec : pyval) : bool :=
  match field "paths" spec with
  | Some (PDict paths) => forallb path_item_ok paths
  | _ => false
  end.

(** [global_consumes] of line 14. *)
Definition global_consumes_of (spec : pyval) : pyval :=
  match field "consumes" spec with
  | Some g => g
  | None => default_consumes
  end.

(** The descriptor [d] is what lines 20-29 build for the entry [e]. *)
Definition described (global_consumes : pyval) (e : entry) (d : descriptor) : Prop :=
  describe global_consumes (e_path e) (e_method e) (e_operation e) = Returned d.


(* ================================================================== *)
(** ** The vocabulary of the properties of [run_test_case] *)
(* ================================================================== *)

Section Vocabulary.
Context {W : Type}.

(** The world is as before, and so is every item of the test case
    other than [request]. *)
Definition frame (s s' : run_state W) : Prop :=
  rs_world s' = rs_world s /\
  rs_operation s' = rs_operation s /\
  forall k, k <> "request" ->
            py_getitem (rs_test_case s') k = py_getitem (rs_test_case s) k.

(** [m] keeps the frame whatever it returns or raises. *)
Definition keeps {A : Type} (m : M (run_state W) A) : Prop :=
  forall s r s', m s = (r, s') -> frame s s'.

End Vocabulary.

(** The dictionary returned by the [except] branch. *)
Definition failure_result (test_name : pyval) (e : pyexn) : dict :=
  [("test_name", test_name); ("passed", PBool false);
   ("error", PStr (str_of_exn e))].

(** [testCase.request.headers], empty when the key is absent. *)
Definition declared_headers (request : dict) : option dict :=
  match dict_get "headers" request with
  | None => Some []
  | Some (PDict h) => Some h
  | Some _ => None
  end.

(** The headers with [Content-Type] added last when there is none and
    [consumes] has a first element. *)
Definition effective_headers (hs : dict) (consumes : list pyval) : dict :=
  if dict_mem "Content-Type" hs then hs
  else match consumes with
       | [] => hs
       | first :: _ => (hs ++ [("Content-Type", first)])%list
       end.

Definition form_urlencoded : pyval := PStr "application/x-www-form-urlencoded".

(** The one write of lines 61-69. *)
Definition wrote_injected_header (operation : descriptor)
    (before after : pyval) : Prop :=
  exists hs first,
    request_headers before = Some (PDict hs) /\
    dict_mem "Content-Type" hs = false /\
    py_truthy (d_consumes operation) = true /\
    py_index0 (d_consumes operation) = Returned first /\
    after = with_request_headers (PDict (dict_set "Content-Type" first hs)) before.

(* ================================================================== *)
(** ** A run in which the operations yield one test case too many *)
(* ================================================================== *)

Module Pairing.

(** Two operations; the generator answers with two test cases for the
    first and one for the second; the service answers 200 with no body. *)
Definition spec : pyval :=
  PDict [("paths",
           PDict [("/items",
                    PDict [("post", PDict [("consumes", PList [PStr "text/plain"])])]);
                  ("/health",
                    PDict [("get", PDict [("consumes", PList [PStr "application/xml"])])])])].

Definition case (name method path : string) : pyval :=
  PDict [("test_name", PStr name);
         ("request", PDict [("method", PStr method); ("path", PStr path)]);
         ("expected_response", PDict [("status_code", PInt 200)])].

Definition cases (d : descriptor) : outcome pyval :=
  if String.eqb (d_path d) "/items"
  then Returned (PList [case "create item" "POST" "/items";
                        case "create second item" "POST" "/items?second"])
  else Returned (PList [case "health" "GET" "/health"]).

Definition ext : externals (list outbound) :=
  Demo.logging (Demo.answers 200 EmptyString (Returned PNone)) cases.

(** What was sent: the URL and the headers of each request, in order. *)
Definition sent (log : list outbound) : list (string * pyval) :=
  map (fun ob => (ob_url ob, ob_headers ob)) log.

End Pairing.

(* ================================================================== *)
(** ** Further vocabulary *)
(* ================================================================== *)

(** A document with the given document-level [consumes] (if any) and the
    given [paths]. *)
Definition document (consumes : option pyval) (paths : dict) : pyval :=
  PDict (match consumes with
         | Some g => [("consumes", g)]
         | None => []
         end ++ [("paths", PDict paths)]).

(** [operation.get(k, default)] on an operation object. *)
Definition field_or (k : string) (default : pyval) (v : pyval) : pyval :=
  match field k v with
  | Some x => x
  | None => default
  end.

(** The first of the keys [run_test_case] subscripts before its [try]
    that a test case does not have. *)
Definition first_missing_key (test_case : pyval) : option string :=
  match test_case with
  | PDict tc =>
      match dict_get "request" tc with
      | None => Some "request"
      | Some (PDict request) =>
          match dict_get "path" request with
          | None => Some "path"
          | Some _ =>
              match dict_get "method" request with
              | None => Some "method"
              | Some _ => None
              end
          end
      | Some _ => None
      end
  | _ => None
  end.

(** The [Content-Type] a test case declares itself, if any. *)
Definition declared_content_type (test_case : pyval) : option pyval :=
  match request_headers test_case with
  | Some h => field "Content-Type" h
  | None => None
  end.


(** [e-acute] followed by [a]: two characters in three bytes. *)
Definition e_acute : string :=
  String (ascii_of_nat 195) (String (ascii_of_nat 169) EmptyString).

Definition e_acute_a : string := (e_acute ++ "a")%string.

(** The number of bytes of a string that start a character. *)
Fixpoint lead_bytes (s : string) : nat :=
  match s with
  | EmptyString => 0
  | String c rest => (if is_continuation c then 0 else 1) + lead_bytes rest
  end.

Definition starts_a_character (s : string) : bool :=
  match s with
  | EmptyString => true
  | String c _ => negb (is_continuation c)
  end.

(** How a request that was built got its headers [hs], for a request
    object [req], an operation [op] and the state [s1] left behind. *)
Definition headers_origin {W : Type} (test_case : pyval) (req : dict)
    (op : descriptor) (w : W) (hs : dict) (s1 : run_state W) : Prop :=
  (dict_get "headers" req = None /\
   py_truthy (d_consumes op) = false /\
   hs = [] /\
   s1 = mkRunState test_case op (PDict []) w)
  \/
  (dict_get "headers" req = None /\
   py_truthy (d_consumes op) = true /\
   exists first,
     py_index0 (d_consumes op) = Returned first /\
     hs = [("Content-Type", first)] /\
     s1 = mkRunState test_case op (PDict hs) w)
  \/
  (dict_get "headers" req = Some (PDict hs) /\
   (dict_mem "Content-Type" hs = true \/ py_truthy (d_consumes op) = false) /\
   s1 = mkRunState test_case op (PDict []) w)
  \/
  (exists hs0 first,
     dict_get "headers" req = Some (PDict hs0) /\
     dict_mem "Content-Type" hs0 = false /\
     py_truthy (d_consumes op) = true /\
     py_index0 (d_consumes op) = Returned first /\
     hs = dict_set "Content-Type" first hs0 /\
     s1 = mkRunState (with_request_headers (PDict hs) test_case) op (PDict []) w).

(** The [try] statement of [run_test_case] as a whole (lines 71-99),
    from the prepared locals. *)
Definition try_block {W : Type} (ext : externals W) (p : prepared)
  : M (run_state W) dict :=
  try_except
    (bind (build_request p) (fun ob => bind (send ext ob) verify))
    on_exception.

(** The generator answered the operation [d], in some world, with the
    one-element list [[test_case]]. *)
Definition generated_by {W : Type} (ext : externals W) (test_case : pyval)
    (d : descriptor) : Prop :=
  exists w0 w1, chain_invoke ext d w0 = (Returned (PList [test_case]), w1).

(** [int], [bool] and [float] values: what an [int] can equal. *)
Definition is_number (v : pyval) : bool :=
  match v with
  | PInt _ | PBool _ | PFloat _ => true
  | _ => false
  end.

(** The two shapes of the dictionary [run_test_case] returns. *)
Definition verdict_result (test_name : pyval) (passed : bool)
    (expected_status : pyval) (actual_status : Z)
    (expected_body actual_body : pyval) : dict :=
  [("test_name", test_name);
   ("passed", PBool passed);
   ("expected_status", expected_status);
   ("actual_status", PInt actual_status);
   ("expected_body", expected_body);
   ("actual_body", actual_body)].

(* ================================================================== *)
(** ** Generators that answer in other ways *)
(* ================================================================== *)

Module Answers.

(** Answers [POST /items] with one case and fails on anything else. *)
Definition failing (d : descriptor) : outcome pyval :=
  if String.eqb (d_path d) "/items"
  then Returned (PList [Pairing.case "create item" "POST" "/items"])
  else Raised (LibraryError "Invalid json output").

(** Answers with one test-case object, not wrapped in a list. *)
Definition object (_ : descriptor) : outcome pyval :=
  Returned (Pairing.case "create item" "POST" "/items").

(** Answers every operation with a list of one case for its path. *)
Definition single (d : descriptor) : outcome pyval :=
  Returned (PList [Pairing.case "probe" (d_method d) (d_path d)]).

(** Answers with a bare string of two characters. *)
Definition text (_ : descriptor) : outcome pyval :=
  Returned (PStr e_acute_a).

Definition service : outbound -> outcome response :=
  Demo.answers 200 EmptyString (Returned PNone).

End Answers.

(* ================================================================== *)
(** ** Properties of [analyze_spec] *)
(* ================================================================== *)

Lemma filter_map_comm {A B : Type} (f : B -> bool) (g : A -> B) (l : list A) :
  filter f (map g l) = map g (filter (fun a => f (g a)) l).
Proof.
  induction l as [|a l IH]; simpl; [reflexivity|].
  destruct (f (g a)); simpl; now rewrite IH.
Qed.

Lemma describe_dict gc path method o :
  describe gc path method (PDict o) =
  Returned
    (mkDescriptor path method
       (match dict_get "operationId" o with
        | Some x => x
        | None => PStr (method ++ "_" ++ path)
        end)
       (match dict_get "parameters" o with Some x => x | None => PList [] end)
       (match dict_get "requestBody" o with Some x => x | None => PDict [] end)
       (match dict_get "responses" o with Some x => x | None => PDict [] end)
       (match dict_get "consumes" o with Some x => x | None => gc end)).
Proof. reflexivity. Qed.

Lemma described_inv gc e d :
  described gc e d ->
  exists o,
    e_operation e = PDict o /\
    d = mkDescriptor (e_path e) (e_method e)
          (match dict_get "operationId" o with
           | Some x => x
           | None => PStr (e_method e ++ "_" ++ e_path e)
           end)
          (match dict_get "parameters" o with Some x => x | None => PList [] end)
          (match dict_get "requestBody" o with Some x => x | None => PDict [] end)
          (match dict_get "responses" o with Some x => x | None => PDict [] end)
          (match dict_get "consumes" o with Some x => x | None => gc end).
Proof.
  unfold described. destruct (e_operation e) eqn:Eo; try discriminate.
  rewrite describe_dict. intros H. injection H as <-. eexists; split; reflexivity.
Qed.

(** The inner loop appends, in order, one descriptor per recognised
    method of the path item. *)
Lemma analyze_methods_returns gc path items :
  forallb operation_ok items = true ->
  forall acc,
  exists ds,
    analyze_methods gc path items acc = Returned (acc ++ ds) /\
    Forall2 (described gc)
      (filter (fun e => recognised (e_method e))
         (map (fun mo => (path, fst mo, snd mo)) items))
      ds.
Proof.
  induction items as [|[method operation] rest IH]; simpl; intros Hok acc.
  - exists []. rewrite app_nil_r. split; [reflexivity | constructor].
  - apply andb_true_iff in Hok as [Hop Hrest].
    unfold operation_ok in Hop. simpl in Hop. unfold e_method at 1. simpl.
    destruct (recognised method) eqn:Hm.
    + destruct operation; try discriminate.
      rewrite describe_dict. simpl.
      match goal with
      | |- context [analyze_methods _ _ _ (acc ++ [?d])] => set (d0 := d)
      end.
      destruct (IH Hrest (acc ++ [d0])) as (ds & Hrun & Hall).
      exists (d0 :: ds). split.
      * rewrite Hrun, <- app_assoc. reflexivity.
      * constructor; [|exact Hall].
        unfold described, e_path, e_method, e_operation. simpl.
        rewrite describe_dict. reflexivity.
    + exact (IH Hrest acc).
Qed.

(** So does the outer loop, path after path. *)
Lemma analyze_paths_returns gc items :
  forallb path_item_ok items = true ->
  forall acc,
  exists ds,
    analyze_paths gc items acc = Returned (acc ++ ds) /\
    Forall2 (described gc) (recognised_entries items) ds.
Proof.
  unfold recognised_entries, operation_entries.
  induction items as [|[path item] rest IH]; simpl; intros Hok acc.
  - exists []. rewrite app_nil_r. split; [reflexivity | constructor].
  - apply andb_true_iff in Hok as [Hitem Hrest].
    unfold path_item_ok in Hitem. unfold path_entries at 1. simpl in *.
    destruct item; try discriminate. simpl.
    destruct (analyze_methods_returns gc path d Hitem acc) as (ds1 & Hrun1 & Hall1).
    rewrite Hrun1. simpl.
    destruct (IH Hrest (acc ++ ds1)) as (ds2 & Hrun2 & Hall2).
    exists (ds1 ++ ds2). split.
    + rewrite Hrun2, <- app_assoc. reflexivity.
    + rewrite filter_app. apply Forall2_app; assumption.
Qed.

(** On a resolved description [analyze_spec] returns, and its result
    lists what lines 20-29 build for the recognised entries, in document
    order. *)
Lemma analyze_spec_returns spec :
  description_ok spec = true ->
  exists ops,
    analyze_spec spec = Returned ops /\
    Forall2 (described (global_consumes_of spec))
      (recognised_entries (document_paths spec)) ops.
Proof.
  unfold description_ok, document_paths, global_consumes_of, analyze_spec.
  destruct spec; simpl; try discriminate.
  destruct (dict_get "paths" d) as [[]|] eqn:Hp; try discriminate.
  intros Hok.
  destruct (analyze_paths_returns
              (match dict_get "consumes" d with
               | Some g => g
               | None => default_consumes
               end) d0 Hok []) as (ds & Hrun & Hall).
  exists ds. split; [exact Hrun | exact Hall].
Qed.

Lemma recognised_in method :
  recognised method = true -> In method http_methods.
Proof.
  unfold recognised. intros H.
  apply existsb_exists in H as (m & Hin & Heq).
  apply String.eqb_eq in Heq. now subst.
Qed.

Lemma Forall2_impl_left {A B : Type} (P : A -> Prop) (R R' : A -> B -> Prop) l l' :
  (forall a b, P a -> R a b -> R' a b) ->
  Forall P l -> Forall2 R l l' -> Forall2 R' l l'.
Proof.
  intros Himp HP HR. induction HR as [|a b l l' Hab _ IH]; constructor.
  - apply Himp; [now inversion HP | exact Hab].
  - apply IH. now inversion HP.
Qed.

Lemma recognised_entries_recognised paths :
  Forall (fun e => recognised (e_method e) = true) (recognised_entries paths).
Proof.
  apply Forall_forall. intros e He. now apply filter_In in He.
Qed.

Lemma described_columns gc es ds :
  Forall2 (described gc) es ds ->
  map (fun d => (d_path d, d_method d)) ds = map fst es.
Proof.
  induction 1 as [|e d es ds Hd _ IH]; simpl; [reflexivity|].
  apply described_inv in Hd as (o & _ & ->). simpl.
  rewrite IH. now destruct e as [[p m] op].
Qed.

Lemma described_methods gc es ds :
  Forall2 (described gc) es ds ->
  Forall (fun e => recognised (e_method e) = true) es ->
  Forall (fun d => In (d_method d) http_methods) ds.
Proof.
  induction 1 as [|e d es ds Hd _ IH]; intros Hrec; constructor.
  - inversion Hrec as [|? ? He _]; subst.
    apply described_inv in Hd as (o & _ & ->). simpl.
    now apply recognised_in.
  - apply IH. now inversion Hrec.
Qed.

(** C6. On a description with a [paths] mapping, [analyze_spec] returns
    exactly one descriptor per (path, method) pair whose method is one of
    get, post, put, delete, patch, none for any other method, and the
    descriptors come in document order: the (path, method) columns of the
    result are the document's pairs, filtered, in the same order. *)
Theorem analyze_spec_one_descriptor_per_operation spec :
  description_ok spec = true ->
  exists ops,
    analyze_spec spec = Returned ops /\
    map (fun d => (d_path d, d_method d)) ops =
      filter (fun pm => recognised (snd pm))
        (map fst (operation_entries (document_paths spec))) /\
    Forall (fun d => In (d_method d) http_methods) ops.
Proof.
  intros Hok.
  destruct (analyze_spec_returns spec Hok) as (ops & Hrun & Hall).
  exists ops. split; [exact Hrun|].
  rewrite filter_map_comm. split.
  - exact (described_columns _ _ _ Hall).
  - exact (described_methods _ _ _ Hall (recognised_entries_recognised _)).
Qed.

(** On the demo document: [head] and [options] give nothing, the other
    three operations come in document order. *)
Lemma analyze_spec_one_descriptor_per_operation_witness :
  description_ok Demo.petstore = true /\
  exists ops,
    analyze_spec Demo.petstore = Returned ops /\
    map (fun d => (d_path d, d_method d)) ops
      = [("/items", "post"); ("/items", "get"); ("/health", "get")] /\
    Forall (fun d => In (d_method d) http_methods) ops.
Proof.
  split; [reflexivity|].
  exact (analyze_spec_one_descriptor_per_operation Demo.petstore eq_refl).
Defined.

(** C3. The [consumes] of every descriptor is resolved for its own
    operation: the operation's [consumes] when the operation has that
    key, else the document's [consumes] when the document has that key,
    else the one-element list [["application/json"]]. *)
Theorem analyze_spec_consumes_fallback spec :
  description_ok spec = true ->
  exists ops,
    analyze_spec spec = Returned ops /\
    Forall2
      (fun e d =>
         d_consumes d =
         match field "consumes" (e_operation e) with
         | Some own => own
         | None =>
             match field "consumes" spec with
             | Some global => global
             | None => PList [PStr "application/json"]
             end
         end)
      (recognised_entries (document_paths spec)) ops.
Proof.
  intros Hok.
  destruct (analyze_spec_returns spec Hok) as (ops & Hrun & Hall).
  exists ops. split; [exact Hrun|].
  eapply Forall2_impl; [|exact Hall].
  intros e d Hd. apply described_inv in Hd as (o & Ho & ->).
  rewrite Ho. reflexivity.
Qed.

(** On the demo document, which has a document-level [consumes]. *)
Lemma analyze_spec_consumes_fallback_witness :
  description_ok Demo.petstore = true /\
  exists ops,
    analyze_spec Demo.petstore = Returned ops /\
    Forall2
      (fun e d =>
         d_consumes d =
         match field "consumes" (e_operation e) with
         | Some own => own
         | None =>
             match field "consumes" Demo.petstore with
             | Some global => global
             | None => PList [PStr "application/json"]
             end
         end)
      (recognised_entries (document_paths Demo.petstore)) ops.
Proof.
  split; [reflexivity|].
  exact (analyze_spec_consumes_fallback Demo.petstore eq_refl).
Defined.

(** The two cases of the specification's example, run. *)
Example consumes_resolution_example :
  option_map (map d_consumes)
    (match analyze_spec Demo.petstore with
     | Returned ops => Some ops
     | Raised _ => None
     end)
  = Some [PList [PStr "application/xml"];
          PList [PStr "text/plain"];
          PList [PStr "application/xml"]].
Proof. reflexivity. Qed.

(** C10. A descriptor built from an operation object without an
    [operationId] key has [operation_id] equal to the method, an
    underscore and the declared path, the method being one of the
    lower-case names; an operation at [/items] under [post] gets
    ["post_/items"]. *)
Theorem analyze_spec_default_operation_id spec :
  description_ok spec = true ->
  (exists ops,
     analyze_spec spec = Returned ops /\
     Forall2
       (fun e d =>
          field "operationId" (e_operation e) = None ->
          d_operation_id d = PStr (e_method e ++ "_" ++ e_path e) /\
          In (e_method e) http_methods)
       (recognised_entries (document_paths spec)) ops) /\
  exists d,
    analyze_spec
      (PDict [("paths", PDict [("/items", PDict [("post", PDict [])])])])
    = Returned [d] /\
    d_operation_id d = PStr "post_/items".
Proof.
  intros Hok. split.
  - destruct (analyze_spec_returns spec Hok) as (ops & Hrun & Hall).
    exists ops. split; [exact Hrun|].
    eapply Forall2_impl_left; [|apply recognised_entries_recognised|exact Hall].
    intros e d He Hd. simpl in He.
    apply described_inv in Hd as (o & Ho & ->).
    rewrite Ho. simpl. intros ->. split; [reflexivity|].
    now apply recognised_in.
  - eexists. split; reflexivity.
Qed.

(** On the demo document, where only [listItems] is named. *)
Lemma analyze_spec_default_operation_id_witness :
  description_ok Demo.petstore = true /\
  exists ops,
    analyze_spec Demo.petstore = Returned ops /\
    Forall2
      (fun e d =>
         field "operationId" (e_operation e) = None ->
         d_operation_id d = PStr (e_method e ++ "_" ++ e_path e) /\
         In (e_method e) http_methods)
      (recognised_entries (document_paths Demo.petstore)) ops.
Proof.
  split; [reflexivity|].
  exact (proj1 (analyze_spec_default_operation_id Demo.petstore eq_refl)).
Defined.

(* ================================================================== *)
(** ** Dictionaries: reading after writing *)
(* ================================================================== *)

Lemma dict_get_set_eq k v d : dict_get k (dict_set k v d) = Some v.
Proof.
  induction d as [|[k' v'] d IH]; simpl.
  - now rewrite String.eqb_refl.
  - destruct (String.eqb k k') eqn:E; simpl; rewrite E; auto.
Qed.

Lemma dict_get_set_neq k k' v d :
  k' <> k -> dict_get k' (dict_set k v d) = dict_get k' d.
Proof.
  intros Hne. apply String.eqb_neq in Hne.
  induction d as [|[k0 v0] d IH]; simpl.
  - now rewrite Hne.
  - destruct (String.eqb k k0) eqn:E; simpl.
    + apply String.eqb_eq in E. subst k0. now rewrite Hne.
    + now rewrite IH.
Qed.

Lemma dict_set_absent k v d :
  dict_get k d = None -> dict_set k v d = d ++ [(k, v)].
Proof.
  induction d as [|[k0 v0] d IH]; simpl; [reflexivity|].
  destruct (String.eqb k k0); [discriminate|].
  intros H. now rewrite IH.
Qed.

Lemma dict_mem_false k d : dict_mem k d = false -> dict_get k d = None.
Proof. unfold dict_mem. now destruct (dict_get k d). Qed.

(** Writing the headers object back touches the [request] key only. *)
Lemma getitem_with_request_headers h test_case k :
  k <> "request" ->
  py_getitem (with_request_headers h test_case) k = py_getitem test_case k.
Proof.
  intros Hne. destruct test_case as [| | | | | |tc]; try reflexivity.
  unfold with_request_headers.
  destruct (dict_get "request" tc) as [[]|]; try reflexivity.
  simpl. now rewrite dict_get_set_neq.
Qed.

Lemma request_headers_with h tc request :
  dict_get "request" tc = Some (PDict request) ->
  request_headers (with_request_headers h (PDict tc)) = Some h.
Proof.
  intros H. simpl. rewrite H. simpl.
  now rewrite !dict_get_set_eq.
Qed.

(* ================================================================== *)
(** ** What request building leaves alone *)
(* ================================================================== *)

Section Frame.
Context {W : Type} (ext : externals W).

Local Abbreviation keeps := (@keeps W _).

Lemma frame_refl (s : run_state W) : frame s s.
Proof. repeat split; auto. Qed.

Lemma frame_trans (s1 s2 s3 : run_state W) :
  frame s1 s2 -> frame s2 s3 -> frame s1 s3.
Proof.
  intros (Hw1 & Ho1 & Hk1) (Hw2 & Ho2 & Hk2).
  split; [congruence|]. split; [congruence|].
  intros k Hk. rewrite Hk2, Hk1; auto.
Qed.

Lemma keeps_ret {A} (a : A) : keeps (ret a).
Proof. intros s r s' H. injection H as _ <-. apply frame_refl. Qed.

Lemma keeps_lift {A} (o : outcome A) : keeps (lift o).
Proof. intros s r s' H. injection H as _ <-. apply frame_refl. Qed.

Lemma keeps_gets {A} (f : run_state W -> A) : keeps (gets f).
Proof. intros s r s' H. injection H as _ <-. apply frame_refl. Qed.

Lemma keeps_load_item k : keeps (load_item k).
Proof. intros s r s' H. injection H as _ <-. apply frame_refl. Qed.

Lemma keeps_bind {A B} (m : M (run_state W) A) (k : A -> M (run_state W) B) :
  keeps m -> (forall a, keeps (k a)) -> keeps (bind m k).
Proof.
  intros Hm Hk s r s'. unfold bind.
  destruct (m s) as [[a|e] s0] eqn:Em; intros H.
  - eapply frame_trans; [eapply Hm, Em | eapply Hk, H].
  - injection H as _ <-. eapply Hm, Em.
Qed.

Lemma keeps_store r h : keeps (store r h).
Proof.
  intros s o s' H. injection H as _ <-.
  destruct r; repeat split; simpl; auto.
  intros k Hk. now apply getitem_with_request_headers.
Qed.

Lemma keeps_get_headers request : keeps (get_headers request).
Proof.
  destruct request; try apply keeps_lift.
  apply keeps_bind; [|intros; apply keeps_ret].
  intros s r s' H. injection H as _ <-. repeat split; auto.
Qed.

Lemma keeps_set_header r k v : keeps (set_header r k v).
Proof.
  apply keeps_bind; [apply keeps_gets|]. intros h.
  apply keeps_bind; [apply keeps_lift|]. intros h'.
  apply keeps_store.
Qed.

Lemma keeps_prepare base_url : keeps (prepare ext base_url).
Proof.
  unfold prepare, load_consumes.
  repeat first
    [ apply keeps_ret | apply keeps_lift | apply keeps_load_item
    | apply keeps_gets | apply keeps_get_headers | apply keeps_set_header
    | apply keeps_bind; [|intros ?]
    | match goal with |- keeps (if ?c then _ else _) => destruct c end ].
Qed.

(** The arguments of the call are computed without writing anything. *)
Lemma build_request_state p s r s' :
  build_request (W:=W) p s = (r, s') -> s' = s.
Proof.
  unfold build_request, bind, deref, gets, lift, ret.
  destruct (py_get _ _ _); intros H; now injection H.
Qed.

Lemma keeps_build base_url : keeps (build ext base_url).
Proof.
  apply keeps_bind; [apply keeps_prepare|].
  intros p s r s' H. apply build_request_state in H as ->. apply frame_refl.
Qed.

(** Once the request is built, the run is the [try] block on it. *)
Lemma run_after_build base_url s ob s1 :
  build ext base_url s = (Returned ob, s1) ->
  run_test_case_body ext base_url s =
  try_except (bind (send ext ob) (verify)) on_exception s1.
Proof.
  unfold build, run_test_case_body, try_except, bind.
  destruct (prepare ext base_url s) as [[p|e] s0]; [|discriminate].
  destruct (build_request p s0) as [[ob'|e] s1'] eqn:Eb; [|discriminate].
  intros H. injection H as -> ->. reflexivity.
Qed.

End Frame.

(* ================================================================== *)
(** ** The verdict *)
(* ================================================================== *)

Lemma getitem_field k v x : field k v = Some x -> py_getitem v k = Returned x.
Proof. destruct v; simpl; try discriminate. now intros ->. Qed.


Section Verdict.
Context {W : Type} (ext : externals W).
Variables (base_url : string) (test_case : pyval) (operation : descriptor).
Variables (w : W) (ob : outbound) (s1 : run_state W).

(** The request has been built: lines 61-69 went through and the
    arguments of the call are [ob]. *)
Hypothesis Hbuilt :
  build ext base_url (mkRunState test_case operation PNone w) = (Returned ob, s1).

Lemma built_world : rs_world s1 = w.
Proof. exact (proj1 (keeps_build ext _ _ _ _ Hbuilt)). Qed.

Lemma built_getitem k :
  k <> "request" -> py_getitem (rs_test_case s1) k = py_getitem test_case k.
Proof. exact (proj2 (proj2 (keeps_build ext _ _ _ _ Hbuilt)) k). Qed.

(** An exception raised by the call itself. *)
Lemma run_transport_failure e w' test_name :
  requests_request ext ob w = (Raised e, w') ->
  field "test_name" test_case = Some test_name ->
  run_test_case ext base_url test_case operation w =
  (Returned (failure_result test_name e), rs_test_case s1, w').
Proof.
  intros Hsend Hname. unfold run_test_case.
  rewrite (run_after_build ext _ _ _ _ Hbuilt).
  unfold try_except, bind, send. rewrite built_world, Hsend. simpl.
  unfold on_exception, bind, load_item. simpl.
  rewrite built_getitem by discriminate.
  rewrite (getitem_field _ _ _ Hname). reflexivity.
Qed.

(** A response whose text is not empty and does not parse. *)
Lemma run_unparsable_body resp e w' test_name :
  requests_request ext ob w = (Returned resp, w') ->
  text resp <> EmptyString ->
  json resp = Raised e ->
  field "test_name" test_case = Some test_name ->
  run_test_case ext base_url test_case operation w =
  (Returned (failure_result test_name e), rs_test_case s1, w').
Proof.
  intros Hsend Htext Hjson Hname. unfold run_test_case.
  rewrite (run_after_build ext _ _ _ _ Hbuilt).
  unfold try_except, bind, send. rewrite built_world, Hsend. simpl.
  unfold verify, bind, lift. apply String.eqb_neq in Htext.
  rewrite Htext, Hjson. simpl.
  unfold on_exception, bind, load_item. simpl.
  rewrite built_getitem by discriminate.
  rewrite (getitem_field _ _ _ Hname). reflexivity.
Qed.

(** A response whose text is empty or parses, against a test case
    that has its name and its expected status. *)
Lemma run_verdict resp w' test_name expected_response expected_status :
  requests_request ext ob w = (Returned resp, w') ->
  (if String.eqb (text resp) EmptyString then True
   else exists body, json resp = Returned body) ->
  field "test_name" test_case = Some test_name ->
  field "expected_response" test_case = Some expected_response ->
  field "status_code" expected_response = Some expected_status ->
  run_test_case ext base_url test_case operation w =
  (Returned
     [("test_name", test_name);
      ("passed", PBool (py_eq_int (status_code resp) expected_status));
      ("expected_status", expected_status);
      ("actual_status", PInt (status_code resp));
      ("expected_body",
        match field "body" expected_response with
        | Some b => b
        | None => PNone
        end);
      ("actual_body",
        if String.eqb (text resp) EmptyString then PNone
        else match json resp with
             | Returned body => body
             | Raised _ => PNone
             end)],
   rs_test_case s1, w').
Proof.
  intros Hsend Hbody Hname Hexp Hstatus. unfold run_test_case.
  rewrite (run_after_build ext _ _ _ _ Hbuilt).
  unfold try_except, bind, send. rewrite built_world, Hsend. simpl.
  unfold verify, bind, lift, load_item, ret. simpl.
  rewrite !built_getitem by discriminate.
  rewrite (getitem_field _ _ _ Hname), (getitem_field _ _ _ Hexp),
    (getitem_field _ _ _ Hstatus).
  destruct expected_response as [| | | | | |er]; try discriminate.
  simpl.
  destruct (String.eqb (text resp) EmptyString).
  - reflexivity.
  - destruct Hbody as [body ->]. reflexivity.
Qed.

End Verdict.

(* ================================================================== *)
(** ** Properties of [run_test_case]: failures and verdicts *)
(* ================================================================== *)

(** C2. When the HTTP call of a test case raises (connection refused,
    timeout, malformed response), [run_test_case] returns instead of
    raising: the result has [passed = False] and the message of the
    exception under [error], and neither [actual_status] nor
    [actual_body].  The test case has the [test_name] its shape requires. *)
Theorem transport_failure_is_caught {W : Type} (ext : externals W)
    base_url test_case operation w ob s1 e w' test_name :
  build ext base_url (mkRunState test_case operation PNone w) = (Returned ob, s1) ->
  requests_request ext ob w = (Raised e, w') ->
  field "test_name" test_case = Some test_name ->
  exists result,
    fst (fst (run_test_case ext base_url test_case operation w)) = Returned result /\
    dict_get "passed" result = Some (PBool false) /\
    dict_get "error" result = Some (PStr (str_of_exn e)) /\
    dict_get "actual_status" result = None /\
    dict_get "actual_body" result = None.
Proof.
  intros Hbuilt Hsend Hname.
  rewrite (run_transport_failure ext _ _ _ _ _ _ Hbuilt _ _ _ Hsend Hname).
  exists (failure_result test_name e). repeat split.
Qed.

(** Against a service that refuses the connection. *)
Lemma transport_failure_is_caught_witness :
  exists result,
    fst (fst (run_test_case (Demo.logging Demo.unreachable Demo.no_cases)
                "http://localhost:8000" (Demo.case_with None 200)
                Demo.op_json [])) = Returned result /\
    dict_get "passed" result = Some (PBool false) /\
    dict_get "error" result = Some (PStr "Connection refused") /\
    dict_get "actual_status" result = None /\
    dict_get "actual_body" result = None.
Proof.
  eapply (transport_failure_is_caught
            (Demo.logging Demo.unreachable Demo.no_cases)
            "http://localhost:8000" (Demo.case_with None 200) Demo.op_json []
            _ _ (LibraryError "Connection refused"));
    reflexivity.
Defined.

(** C7. Once a response is obtained: if its text is not empty and does
    not parse as JSON, the result is the failure result ([passed = False]
    with the parser's message under [error], no status fields), not a
    status comparison; if its text is empty, [actual_body] is [None] and
    there is no [error]. *)
Theorem unparsable_body_is_failure {W : Type} (ext : externals W)
    base_url test_case operation w ob s1 resp w' test_name :
  build ext base_url (mkRunState test_case operation PNone w) = (Returned ob, s1) ->
  requests_request ext ob w = (Returned resp, w') ->
  field "test_name" test_case = Some test_name ->
  (forall e,
      text resp <> EmptyString -> json resp = Raised e ->
      exists result,
        fst (fst (run_test_case ext base_url test_case operation w)) = Returned result /\
        dict_get "passed" result = Some (PBool false) /\
        dict_get "error" result = Some (PStr (str_of_exn e)) /\
        dict_get "expected_status" result = None /\
        dict_get "actual_status" result = None) /\
  (forall expected_response expected_status,
      text resp = EmptyString ->
      field "expected_response" test_case = Some expected_response ->
      field "status_code" expected_response = Some expected_status ->
      exists result,
        fst (fst (run_test_case ext base_url test_case operation w)) = Returned result /\
        dict_get "actual_body" result = Some PNone /\
        dict_get "error" result = None).
Proof.
  intros Hbuilt Hsend Hname. split.
  - intros e Htext Hjson.
    rewrite (run_unparsable_body ext _ _ _ _ _ _ Hbuilt _ _ _ _ Hsend Htext Hjson Hname).
    exists (failure_result test_name e). repeat split.
  - intros er es Htext Her Hes.
    erewrite (run_verdict ext _ _ _ _ _ _ Hbuilt resp w'); eauto.
    + eexists. split; [reflexivity|]. rewrite Htext. split; reflexivity.
    + now rewrite Htext.
Qed.

(** Against a service that answers 200 with the text [OK], and one that
    answers 204 with no text. *)
Lemma unparsable_body_is_failure_witness :
  (exists result,
     fst (fst (run_test_case
                 (Demo.logging (Demo.answers 200 "OK" Demo.not_json) Demo.no_cases)
                 "http://localhost:8000" (Demo.case_with None 200)
                 Demo.op_json [])) = Returned result /\
     dict_get "passed" result = Some (PBool false) /\
     dict_get "error" result
       = Some (PStr "Expecting value: line 1 column 1 (char 0)") /\
     dict_get "expected_status" result = None /\
     dict_get "actual_status" result = None) /\
  (exists result,
     fst (fst (run_test_case
                 (Demo.logging (Demo.answers 204 EmptyString Demo.not_json) Demo.no_cases)
                 "http://localhost:8000" (Demo.case_with None 204)
                 Demo.op_json [])) = Returned result /\
     dict_get "actual_body" result = Some PNone /\
     dict_get "error" result = None).
Proof.
  split.
  - eapply (proj1 (unparsable_body_is_failure
                     (Demo.logging (Demo.answers 200 "OK" Demo.not_json) Demo.no_cases)
                     "http://localhost:8000" (Demo.case_with None 200) Demo.op_json []
                     _ _ _ _ _ eq_refl eq_refl eq_refl)
             (LibraryError "Expecting value: line 1 column 1 (char 0)"));
      [discriminate | reflexivity].
  - eapply (proj2 (unparsable_body_is_failure
                     (Demo.logging (Demo.answers 204 EmptyString Demo.not_json) Demo.no_cases)
                     "http://localhost:8000" (Demo.case_with None 204) Demo.op_json []
                     _ _ _ _ _ eq_refl eq_refl eq_refl));
      reflexivity.
Defined.

(** C1, counterexample.  The service answers 200 with the text [OK]; the
    test case expects 200.  The response is obtained and
    [actual_status == expected_status] holds, yet [passed] is [False]:
    the body, which is not JSON, decided the verdict. *)
Lemma verdict_depends_on_body_counterexample :
  let ext := Demo.logging (Demo.answers 200 "OK" Demo.not_json) Demo.no_cases in
  let test_case := Demo.case_with None 200 in
  exists ob s1 resp w' result,
    build ext "http://localhost:8000" (mkRunState test_case Demo.op_json PNone [])
      = (Returned ob, s1) /\
    requests_request ext ob [] = (Returned resp, w') /\
    status_code resp = 200%Z /\
    (expected <- py_getitem test_case "expected_response" ;;
     py_getitem expected "status_code")%outcome = Returned (PInt 200) /\
    py_eq_int (status_code resp) (PInt 200) = true /\
    fst (fst (run_test_case ext "http://localhost:8000" test_case Demo.op_json []))
      = Returned result /\
    dict_get "passed" result = Some (PBool false).
Proof.
  simpl. do 5 eexists. repeat split; reflexivity.
Qed.

(** C1, as amended.  For a test case with its name and expected status
    and a response whose text is empty or parses as JSON, [passed] is
    [actual_status == expected_status]; neither body enters it, so a
    matching status gives [passed = True] whatever the bodies are. *)
Theorem verdict_is_status_equality {W : Type} (ext : externals W)
    base_url test_case operation w ob s1 resp w'
    test_name expected_response expected_status :
  build ext base_url (mkRunState test_case operation PNone w) = (Returned ob, s1) ->
  requests_request ext ob w = (Returned resp, w') ->
  (text resp = EmptyString \/ exists body, json resp = Returned body) ->
  field "test_name" test_case = Some test_name ->
  field "expected_response" test_case = Some expected_response ->
  field "status_code" expected_response = Some expected_status ->
  exists result,
    fst (fst (run_test_case ext base_url test_case operation w)) = Returned result /\
    dict_get "passed" result
      = Some (PBool (py_eq_int (status_code resp) expected_status)) /\
    (py_eq_int (status_code resp) expected_status = true ->
     dict_get "passed" result = Some (PBool true)) /\
    dict_get "error" result = None.
Proof.
  intros Hbuilt Hsend Hbody Hname Her Hes.
  erewrite (run_verdict ext _ _ _ _ _ _ Hbuilt resp w'); eauto.
  - eexists. split; [reflexivity|]. simpl. repeat split.
    now intros ->.
  - destruct (String.eqb (text resp) EmptyString) eqn:E; [exact I|].
    destruct Hbody as [Ht|Hb]; [|exact Hb].
    apply String.eqb_neq in E. contradiction.
Qed.

(** Against a service that answers 200 with a JSON body other than the
    expected one. *)
Lemma verdict_is_status_equality_witness :
  exists result,
    fst (fst (run_test_case
                (Demo.logging
                   (Demo.answers 200 "[true]"
                      (Returned (PList [PBool true])))
                   Demo.no_cases)
                "http://localhost:8000" (Demo.case_with None 200)
                Demo.op_json [])) = Returned result /\
    dict_get "passed" result = Some (PBool (py_eq_int 200 (PInt 200))) /\
    (py_eq_int 200 (PInt 200) = true ->
     dict_get "passed" result = Some (PBool true)) /\
    dict_get "error" result = None.
Proof.
  eapply (verdict_is_status_equality
            (Demo.logging
               (Demo.answers 200 "[true]"
                  (Returned (PList [PBool true])))
               Demo.no_cases)
            "http://localhost:8000" (Demo.case_with None 200) Demo.op_json []
            _ _ _ _ _ _ _ eq_refl eq_refl);
    [right; eexists; reflexivity | reflexivity | reflexivity | reflexivity].
Defined.

(* ================================================================== *)
(** ** Properties of request building *)
(* ================================================================== *)


Lemma is_str_true s v : is_str s v = true <-> v = PStr s.
Proof.
  destruct v; simpl; try (split; [discriminate | intros H; discriminate H]).
  rewrite String.eqb_eq. split; [now intros -> | now intros [= ->]].
Qed.

(** C4. For a test case whose request has its path and method, with
    headers [hs] (empty when the key is absent) and a descriptor whose
    [consumes] is the list [consumes]: the request is built, and its
    headers are [hs], except that [Content-Type = consumes[0]] is added
    when [hs] has no key exactly equal to [Content-Type] and [consumes]
    is not empty; headers that have the key are passed on as they are. *)
Theorem build_injects_content_type {W : Type} (ext : externals W)
    base_url test_case operation w request path method hs consumes :
  field "request" test_case = Some (PDict request) ->
  dict_get "path" request = Some path ->
  dict_get "method" request = Some (PStr method) ->
  declared_headers request = Some hs ->
  d_consumes operation = PList consumes ->
  exists ob s',
    build ext base_url (mkRunState test_case operation PNone w) = (Returned ob, s') /\
    ob_headers ob = PDict (effective_headers hs consumes) /\
    (dict_mem "Content-Type" hs = true -> ob_headers ob = PDict hs) /\
    (dict_mem "Content-Type" hs = false ->
     forall first rest, consumes = first :: rest ->
     ob_headers ob = PDict (hs ++ [("Content-Type", first)])).
Proof.
  intros Hreq Hpath Hmethod Hhs Hcons.
  assert (Hshape :
            (dict_mem "Content-Type" hs = true ->
             effective_headers hs consumes = hs) /\
            (dict_mem "Content-Type" hs = false ->
             forall first rest, consumes = first :: rest ->
             effective_headers hs consumes = hs ++ [("Content-Type", first)])).
  { unfold effective_headers. split.
    - now intros ->.
    - intros -> first rest ->. reflexivity. }
  cut (exists ob s',
          build ext base_url (mkRunState test_case operation PNone w)
          = (Returned ob, s') /\
          ob_headers ob = PDict (effective_headers hs consumes)).
  { intros (ob & s' & Hb & Hh). exists ob, s'. rewrite Hh.
    destruct Hshape as [H1 H2]. repeat split; auto.
    - intros Hm. now rewrite H1.
    - intros Hm first rest Hc. now rewrite (H2 Hm first rest Hc). }
  clear Hshape.
  destruct test_case as [| | | | | |tc]; try discriminate. simpl in Hreq.
  unfold declared_headers in Hhs. unfold effective_headers.
  destruct (dict_get "headers" request) as [h|] eqn:Hh;
    [destruct h; try discriminate|]; injection Hhs as <-;
    destruct (dict_mem "Content-Type" _) eqn:Hmem;
    try (simpl in Hmem; discriminate Hmem);
    destruct consumes as [|first rest];
    do 2 eexists;
    (split;
     [ unfold build, prepare, build_request, set_header, bind, load_item,
         load_consumes, lift, deref, store, gets, modify; simpl;
       repeat (progress (rewrite ?Hreq, ?Hpath, ?Hmethod, ?Hh, ?Hcons, ?Hmem,
                           ?dict_get_set_eq; simpl));
       unfold ret; reflexivity
     | simpl; rewrite ?(dict_set_absent _ _ _ (dict_mem_false _ _ Hmem));
       reflexivity ]).
Qed.

(** A test case without headers, a descriptor that consumes JSON first
    and XML second: the first wins. *)
Lemma build_injects_content_type_witness :
  exists ob s',
    build (Demo.logging Demo.unreachable Demo.no_cases) "http://localhost:8000"
      (mkRunState (Demo.case_with None 200) Demo.op_json PNone [])
    = (Returned ob, s') /\
    ob_headers ob = PDict [("Content-Type", PStr "application/json")].
Proof.
  destruct (build_injects_content_type
              (Demo.logging Demo.unreachable Demo.no_cases)
              "http://localhost:8000" (Demo.case_with None 200) Demo.op_json []
              _ _ _ [] _ eq_refl eq_refl eq_refl eq_refl eq_refl)
    as (ob & s' & Hb & Hh & _).
  exists ob, s'. split; [exact Hb | exact Hh].
Defined.

(** The key is matched exactly: a [content-type] header in another case
    does not count as present, and one is added. *)
Example content_type_key_is_case_sensitive :
  exists ob s',
    build (Demo.logging Demo.unreachable Demo.no_cases) "http://localhost:8000"
      (mkRunState
         (Demo.case_with (Some (PDict [("content-type", PStr "text/plain")])) 200)
         Demo.op_json PNone [])
    = (Returned ob, s') /\
    ob_headers ob = PDict [("content-type", PStr "text/plain");
                           ("Content-Type", PStr "application/json")].
Proof. do 2 eexists. split; reflexivity. Qed.

(* ================================================================== *)
(** ** What request building writes *)
(* ================================================================== *)

(** C9, counterexample.  A test case whose request carries an empty
    [headers] mapping, built against a descriptor that consumes JSON: no
    call has been made, and the caller's test case now has a
    [Content-Type] header. *)
Lemma build_changes_the_test_case_counterexample :
  let ext := Demo.logging Demo.unreachable Demo.no_cases in
  let test_case := Demo.case_with (Some (PDict [])) 200 in
  let s' := snd (build ext "http://localhost:8000"
                   (mkRunState test_case Demo.op_json PNone [])) in
  request_headers test_case = Some (PDict []) /\
  request_headers (rs_test_case s')
    = Some (PDict [("Content-Type", PStr "application/json")]) /\
  rs_test_case s' <> test_case /\
  rs_world s' = [].
Proof.
  simpl. repeat split; try reflexivity. discriminate.
Qed.

Lemma getitem_request_headers test_case r :
  py_getitem test_case "request" = Returned (PDict r) ->
  request_headers test_case = dict_get "headers" r.
Proof.
  destruct test_case as [| | | | | |tc]; try discriminate. simpl.
  destruct (dict_get "request" tc); [|discriminate].
  now intros [= ->].
Qed.

Lemma setitem_inv h k v h' :
  py_setitem h k v = Returned h' ->
  exists hs, h = PDict hs /\ h' = PDict (dict_set k v hs).
Proof.
  destruct h; try discriminate. simpl. intros [= <-]. eauto.
Qed.


Lemma prepare_writes {W : Type} (ext : externals W) base_url s :
  let s' := snd (prepare ext base_url s) in
  rs_test_case s' = rs_test_case s \/
  wrote_injected_header (rs_operation s) (rs_test_case s) (rs_test_case s').
Proof.
  destruct s as [tc operation f w].
  unfold prepare, bind, load_item, load_consumes, lift. simpl.
  destruct (py_getitem tc "request") as [request|e] eqn:Hreq; simpl; [|now left].
  destruct (py_getitem request "path"); simpl; [|now left].
  destruct (py_getitem request "method") as [m|]; simpl; [|now left].
  destruct (py_lower ext m); simpl; [|now left].
  destruct request as [| | | | | |r]; simpl; try now left.
  pose proof (getitem_request_headers _ _ Hreq) as Hrh.
  unfold deref, gets. simpl.
  destruct (dict_get "headers" r) as [hv|] eqn:Hh; simpl.
  - rewrite Hrh.
    destruct (py_contains "Content-Type" hv) as [present|] eqn:Hc; simpl; [|now left].
    destruct (negb present && py_truthy (d_consumes operation)) eqn:Hcond;
      simpl; [|now left].
    apply andb_true_iff in Hcond as [Hp Ht]. apply negb_true_iff in Hp. subst present.
    destruct (py_index0 (d_consumes operation)) as [first|] eqn:Hi; simpl; [|now left].
    unfold set_header, bind, deref, gets, store, modify, lift. simpl. rewrite Hrh.
    destruct (py_setitem hv "Content-Type" first) as [h'|] eqn:Hs; simpl; [|now left].
    apply setitem_inv in Hs as (hs & -> & ->). simpl in Hc. injection Hc as Hc.
    right. exists hs, first. repeat split; auto.
  - destruct (py_truthy (d_consumes operation)); simpl; [|now left].
    destruct (py_index0 (d_consumes operation)); simpl; [|now left].
    unfold set_header, bind, deref, gets, store, modify, lift. simpl. now left.
Qed.

(** C9, as amended.  Building a request makes no call (the world is as
    before) and writes at most once, to the caller's test case: when the
    request has its own [headers] mapping, without a [Content-Type] key,
    and [consumes] is not empty, [Content-Type = consumes[0]] is added to
    that very mapping.  In every other case the test case is unchanged;
    in particular when the request has no [headers] key. *)
Theorem build_writes_only_injected_header {W : Type} (ext : externals W)
    base_url test_case operation fresh w :
  let s' := snd (build ext base_url (mkRunState test_case operation fresh w)) in
  rs_world s' = w /\
  rs_operation s' = operation /\
  (rs_test_case s' = test_case \/
   wrote_injected_header operation test_case (rs_test_case s')) /\
  (request_headers test_case = None -> rs_test_case s' = test_case).
Proof.
  set (s := mkRunState test_case operation fresh w).
  assert (Hw : forall r s1, build ext base_url s = (r, s1) ->
                            rs_world s1 = w /\ rs_operation s1 = operation).
  { intros r s1 H. destruct (keeps_build ext _ _ _ _ H) as (H1 & H2 & _).
    split; assumption. }
  assert (Hwr : let s' := snd (build ext base_url s) in
                rs_test_case s' = test_case \/
                wrote_injected_header operation test_case (rs_test_case s')).
  { pose proof (prepare_writes ext base_url s) as Hp.
    unfold build, bind. simpl in *.
    destruct (prepare ext base_url s) as [[p|e] s0]; simpl in *; [|exact Hp].
    destruct (build_request p s0) as [r s1] eqn:Eb.
    apply build_request_state in Eb as ->. exact Hp. }
  simpl in *.
  destruct (build ext base_url s) as [r s1] eqn:E. simpl in *.
  destruct (Hw r s1 eq_refl) as [Hworld Hop].
  repeat split.
  - exact Hworld.
  - exact Hop.
  - exact Hwr.
  - intros Hnone. destruct Hwr as [H|(hs & first & Hsome & _)]; [exact H|].
    congruence.
Qed.

(* ================================================================== *)
(** ** The pairing of test cases and operations in [main] *)
(* ================================================================== *)


(** Every pair that is run adds one result, in order. *)
Lemma run_all_length {W : Type} (ext : externals W) base_url pairs :
  forall acc w results w',
    run_all ext base_url pairs acc w = (Returned results, w') ->
    List.length results = List.length acc + List.length pairs.
Proof.
  induction pairs as [|[test_case operation] rest IH]; simpl; intros acc w results w' H.
  - injection H as <- _. lia.
  - destruct (run_test_case ext base_url test_case operation w) as [[[result|e] tc'] w1];
      [|discriminate].
    apply IH in H. rewrite H, length_app. simpl. lia.
Qed.

(** X12. A run that completes has as many results as the shorter of the
    two lists it zips: the test cases generated and the operations. *)
Lemma main_result_count {W : Type} (ext : externals W) spec base_url w rep w' :
  main ext spec base_url w = (Returned rep, w') ->
  exists operations,
    analyze_spec spec = Returned operations /\
    List.length (test_results rep)
      = Nat.min (List.length (all_test_cases rep)) (List.length operations).
Proof.
  unfold main, bind, lift, ret.
  destruct (analyze_spec spec) as [operations|e]; [|discriminate].
  destruct (generate_all ext operations [] w) as [[cases|e] w1]; [|discriminate].
  destruct (run_all ext base_url (combine cases operations) [] w1)
    as [[results|e] w2] eqn:Hrun; [|discriminate].
  intros H. injection H as <- _. exists operations. split; [reflexivity|].
  apply run_all_length in Hrun. simpl in *. now rewrite Hrun, length_combine.
Qed.

(** C8, the failing input.  Three test cases are generated, two by
    [POST /items] and one by [GET /health].  The run executes two: the
    second test case of [POST /items] goes out with the [Content-Type] of
    [GET /health], the descriptor at its position, and the test case of
    [GET /health] is never executed. *)
Theorem main_pairs_by_position :
  exists rep log,
    main Pairing.ext Pairing.spec "http://localhost:8000" [] = (Returned rep, log) /\
    List.length (all_test_cases rep) = 3 /\
    List.length (test_results rep) = 2 /\
    map (dict_get "test_name") (test_results rep)
      = [Some (PStr "create item"); Some (PStr "create second item")] /\
    Pairing.sent log
      = [("http://localhost:8000/items",
           PDict [("Content-Type", PStr "text/plain")]);
         ("http://localhost:8000/items?second",
           PDict [("Content-Type", PStr "application/xml")])].
Proof.
  match goal with
  | |- exists rep log, ?run = _ /\ _ =>
      let v := eval vm_compute in run in
      assert (Hrun : run = v) by (vm_compute; reflexivity)
  end.
  do 2 eexists. split; [exact Hrun|].
  repeat split.
Qed.

(* ================================================================== *)
(** ** More on [analyze_spec]: when it returns, what it carries over,
       how documents compose *)
(* ================================================================== *)

Lemma analyze_methods_shape gc path items :
  forall acc ops,
    analyze_methods gc path items acc = Returned ops ->
    forallb operation_ok items = true.
Proof.
  induction items as [|[method operation] rest IH]; simpl; intros acc ops H;
    [reflexivity|].
  unfold operation_ok at 1. simpl.
  destruct (recognised method).
  - destruct operation; try discriminate.
    rewrite describe_dict in H. simpl in H. simpl. eapply IH, H.
  - simpl. eapply IH, H.
Qed.

Lemma analyze_paths_shape gc items :
  forall acc ops,
    analyze_paths gc items acc = Returned ops ->
    forallb path_item_ok items = true.
Proof.
  induction items as [|[path item] rest IH]; simpl; intros acc ops H;
    [reflexivity|].
  unfold path_item_ok at 1. simpl.
  destruct item; try discriminate. simpl in H.
  destruct (analyze_methods gc path d acc) as [ops1|e] eqn:Hm; [|discriminate].
  simpl in H. rewrite (analyze_methods_shape _ _ _ _ _ Hm). simpl.
  eapply IH, H.
Qed.

(** X1. [analyze_spec] returns a list exactly on the documents that are
    a mapping with a [paths] mapping, every path item a mapping and every
    value under get, post, put, delete or patch an object; on any other
    document it raises.  Values under other keys are never looked at. *)
Theorem analyze_spec_returns_iff spec :
  (exists ops, analyze_spec spec = Returned ops) <-> description_ok spec = true.
Proof.
  split.
  - intros [ops H]. unfold analyze_spec in H. unfold description_ok.
    destruct spec; try discriminate. simpl in *.
    destruct (dict_get "paths" d) as [paths|]; [|discriminate].
    simpl in H. destruct paths; try discriminate. simpl in H.
    eapply analyze_paths_shape, H.
  - intros Hok. destruct (analyze_spec_returns spec Hok) as (ops & H & _).
    now exists ops.
Qed.

(** X2. Every descriptor carries its path and method, takes
    [operationId], [parameters], [requestBody] and [responses] from the
    operation object unchanged when the key is there, and defaults an
    absent [parameters] to [[]] and an absent [requestBody] or
    [responses] to [{}]. *)
Theorem analyze_spec_optional_fields spec :
  description_ok spec = true ->
  exists ops,
    analyze_spec spec = Returned ops /\
    Forall2
      (fun e d =>
         d_path d = e_path e /\
         d_method d = e_method e /\
         (forall x, field "operationId" (e_operation e) = Some x ->
                    d_operation_id d = x) /\
         d_parameters d = field_or "parameters" (PList []) (e_operation e) /\
         d_requestBody d = field_or "requestBody" (PDict []) (e_operation e) /\
         d_responses d = field_or "responses" (PDict []) (e_operation e))
      (recognised_entries (document_paths spec)) ops.
Proof.
  intros Hok.
  destruct (analyze_spec_returns spec Hok) as (ops & Hrun & Hall).
  exists ops. split; [exact Hrun|].
  eapply Forall2_impl; [|exact Hall].
  intros e d Hd. apply described_inv in Hd as (o & Ho & ->).
  unfold field_or. rewrite Ho. simpl. repeat split.
  now intros x ->.
Qed.

(** On the demo document: [listItems] keeps its name. *)
Lemma analyze_spec_optional_fields_witness :
  description_ok Demo.petstore = true /\
  exists ops,
    analyze_spec Demo.petstore = Returned ops /\
    Forall2
      (fun e d =>
         d_path d = e_path e /\
         d_method d = e_method e /\
         (forall x, field "operationId" (e_operation e) = Some x ->
                    d_operation_id d = x) /\
         d_parameters d = field_or "parameters" (PList []) (e_operation e) /\
         d_requestBody d = field_or "requestBody" (PDict []) (e_operation e) /\
         d_responses d = field_or "responses" (PDict []) (e_operation e))
      (recognised_entries (document_paths Demo.petstore)) ops.
Proof.
  split; [reflexivity|].
  exact (analyze_spec_optional_fields Demo.petstore eq_refl).
Defined.

(** The list built so far is only ever appended to. *)
Lemma analyze_methods_acc gc path items :
  forall acc,
    analyze_methods gc path items acc =
    (ds <- analyze_methods gc path items [] ;; Returned (acc ++ ds))%outcome.
Proof.
  induction items as [|[method operation] rest IH]; simpl; intros acc.
  - now rewrite app_nil_r.
  - destruct (recognised method); [|apply IH].
    destruct (describe gc path method operation) as [d|e]; simpl; [|reflexivity].
    rewrite (IH (acc ++ [d])), (IH [d]).
    destruct (analyze_methods gc path rest []); simpl; [|reflexivity].
    now rewrite <- app_assoc.
Qed.

Lemma analyze_paths_acc gc items :
  forall acc,
    analyze_paths gc items acc =
    (ds <- analyze_paths gc items [] ;; Returned (acc ++ ds))%outcome.
Proof.
  induction items as [|[path item] rest IH]; simpl; intros acc.
  - now rewrite app_nil_r.
  - destruct (py_items item) as [methods|e]; simpl; [|reflexivity].
    rewrite (analyze_methods_acc gc path methods acc).
    destruct (analyze_methods gc path methods []) as [ds1|e]; simpl; [|reflexivity].
    rewrite (IH (acc ++ ds1)), (IH ds1).
    destruct (analyze_paths gc rest []); simpl; [|reflexivity].
    now rewrite <- app_assoc.
Qed.

Lemma analyze_paths_app gc items1 items2 :
  forall acc,
    analyze_paths gc (items1 ++ items2) acc =
    (ops <- analyze_paths gc items1 acc ;; analyze_paths gc items2 ops)%outcome.
Proof.
  induction items1 as [|[path item] rest IH]; simpl; intros acc; [reflexivity|].
  destruct (py_items item) as [methods|e]; simpl; [|reflexivity].
  destruct (analyze_methods gc path methods acc) as [ops1|e]; simpl; [|reflexivity].
  apply IH.
Qed.

Lemma analyze_spec_document consumes paths :
  analyze_spec (document consumes paths) =
  analyze_paths (match consumes with Some g => g | None => default_consumes end)
    paths [].
Proof. destruct consumes; reflexivity. Qed.

(** X3. The descriptors of a document are those of its first paths
    followed by those of its remaining paths, under the same document
    [consumes]: what a path contributes depends on no other path, and a
    path that raises makes the whole document raise. *)
Theorem analyze_spec_concatenates consumes paths1 paths2 :
  analyze_spec (document consumes (paths1 ++ paths2)) =
  (ops1 <- analyze_spec (document consumes paths1) ;;
   ops2 <- analyze_spec (document consumes paths2) ;;
   Returned (ops1 ++ ops2))%outcome.
Proof.
  rewrite !analyze_spec_document, analyze_paths_app.
  destruct (analyze_paths _ paths1 []) as [ops1|e]; simpl; [|reflexivity].
  apply analyze_paths_acc.
Qed.

(* ================================================================== *)
(** ** More on request building *)
(* ================================================================== *)

(** A request that was built: the test case it came from, the request
    itself, and where its headers came from. *)
Lemma build_inv {W : Type} (ext : externals W) base_url tc op f w ob s1 :
  build ext base_url (mkRunState tc op f w) = (Returned ob, s1) ->
  exists tcd req path m hs,
    tc = PDict tcd /\
    dict_get "request" tcd = Some (PDict req) /\
    dict_get "path" req = Some path /\
    dict_get "method" req = Some (PStr m) /\
    ob = mkOutbound (str_lower ext m) (base_url ++ format_value ext path)
           (PDict hs)
           (if is_str "application/x-www-form-urlencoded"
                 (match dict_get "Content-Type" hs with
                  | Some x => x
                  | None => PNone
                  end)
            then FormData else JsonDocument)
           (match dict_get "body" req with Some x => x | None => PNone end) /\
    headers_origin (PDict tcd) req op w hs s1.
Proof.
  unfold build, prepare, bind, load_item, load_consumes, lift, gets. simpl.
  destruct tc as [| | | | | |tcd]; try discriminate. simpl.
  destruct (dict_get "request" tcd) as [request|] eqn:Hreq; [|discriminate].
  destruct request as [| | | | | |req]; try discriminate. simpl.
  destruct (dict_get "path" req) as [path|] eqn:Hpath; [|discriminate].
  destruct (dict_get "method" req) as [m|] eqn:Hm; [|discriminate].
  destruct m as [| | | |m| |]; try discriminate. simpl.
  unfold deref, gets. simpl. rewrite Hreq. simpl.
  destruct (dict_get "headers" req) as [hv|] eqn:Hh; simpl.
  - destruct (py_contains "Content-Type" hv) as [present|] eqn:Hc; simpl;
      [|discriminate].
    destruct (negb present && py_truthy (d_consumes op)) eqn:Hcond; simpl.
    + apply andb_true_iff in Hcond as [Hp Ht]. apply negb_true_iff in Hp.
      subst present.
      destruct (py_index0 (d_consumes op)) as [first|] eqn:Hi; simpl;
        [|discriminate].
      unfold set_header, bind, deref, gets, store, modify, lift. simpl.
      rewrite Hreq. simpl. rewrite Hh.
      destruct (py_setitem hv "Content-Type" first) as [h'|] eqn:Hs; simpl;
        [|discriminate].
      apply setitem_inv in Hs as (hs0 & -> & ->). simpl in Hc. injection Hc as Hc.
      unfold build_request, bind, deref, gets, lift, ret. simpl.
      rewrite !dict_get_set_eq. simpl.
      intros H. injection H as <- <-.
      exists tcd, req, path, m, (dict_set "Content-Type" first hs0).
      repeat split; auto.
      right. right. right. exists hs0, first. simpl. rewrite Hreq.
      repeat split; auto.
    + unfold build_request, bind, deref, gets, lift, ret. simpl.
      rewrite Hreq. simpl. rewrite Hh.
      destruct hv as [| | | | | |hs]; try discriminate. simpl.
      intros H. injection H as <- <-. simpl in Hc. injection Hc as Hc.
      exists tcd, req, path, m, hs. repeat split; auto.
      right. right. left. repeat split; auto.
      subst present. apply andb_false_iff in Hcond as [Hp|Ht]; [left|now right].
      now apply negb_false_iff in Hp.
  - destruct (py_truthy (d_consumes op)) eqn:Ht; simpl.
    + destruct (py_index0 (d_consumes op)) as [first|] eqn:Hi; simpl;
        [|discriminate].
      unfold set_header, build_request, bind, deref, gets, store, modify, lift, ret.
      simpl. intros H. injection H as <- <-.
      exists tcd, req, path, m, [("Content-Type", first)]. repeat split; auto.
      right. left. repeat split; auto. exists first. repeat split; auto.
    + unfold build_request, bind, deref, gets, lift, ret. simpl.
      intros H. injection H as <- <-.
      exists tcd, req, path, m, []. repeat split; auto.
      left. repeat split; auto.
Qed.





(** X10. A request is only ever built from a test case whose [request]
    is an object with a [path] and a string [method]; its URL is the base
    URL followed by the formatted path, nothing in between and nothing
    substituted, its method is the lower-cased method, and its body is
    the request's [body], [None] when there is none. *)
Theorem built_request_parts {W : Type} (ext : externals W)
    base_url test_case operation fresh w ob s1 :
  build ext base_url (mkRunState test_case operation fresh w) = (Returned ob, s1) ->
  exists request path method,
    field "request" test_case = Some (PDict request) /\
    dict_get "path" request = Some path /\
    dict_get "method" request = Some (PStr method) /\
    ob_url ob = (base_url ++ format_value ext path)%string /\
    (forall p, path = PStr p -> ob_url ob = (base_url ++ p)%string) /\
    ob_method ob = str_lower ext method /\
    ob_body ob = field_or "body" PNone (PDict request).
Proof.
  intros H.
  apply build_inv in H as (tcd & req & path & m & hs & -> & Hreq & Hp & Hm & -> & _).
  exists req, path, m. simpl. repeat split; auto.
  now intros p ->.
Qed.

(** A [GET] without a body, against a service that is down. *)
Lemma built_request_parts_witness :
  let ob := mkOutbound "get" "http://localhost:8000/health"
              (PDict [("Content-Type", PStr "application/json")])
              JsonDocument PNone in
  exists request path method,
    field "request" (Pairing.case "health" "GET" "/health") = Some (PDict request) /\
    dict_get "path" request = Some path /\
    dict_get "method" request = Some (PStr method) /\
    ob_url ob
      = ("http://localhost:8000"
           ++ format_value (Demo.logging Demo.unreachable Demo.no_cases) path)%string /\
    (forall p, path = PStr p -> ob_url ob = ("http://localhost:8000" ++ p)%string) /\
    ob_method ob = Demo.lower method /\
    ob_body ob = field_or "body" PNone (PDict request).
Proof.
  exact (built_request_parts (Demo.logging Demo.unreachable Demo.no_cases)
           "http://localhost:8000" (Pairing.case "health" "GET" "/health")
           Demo.op_json PNone [] _ _ eq_refl).
Defined.

(** X8. Which way the body travels follows from the test case and the
    operation alone.  When the test case declares no [Content-Type], the
    body is form data exactly when [consumes] is non-empty and its first
    entry is [application/x-www-form-urlencoded]; when it declares one,
    the body is form data exactly when the declared value is that string,
    whatever [consumes] says. *)
Theorem content_type_decides_encoding {W : Type} (ext : externals W)
    base_url test_case operation fresh w ob s1 :
  build ext base_url (mkRunState test_case operation fresh w) = (Returned ob, s1) ->
  (declared_content_type test_case = None ->
   (ob_encoding ob = FormData <->
    py_truthy (d_consumes operation) = true /\
    py_index0 (d_consumes operation) = Returned form_urlencoded)) /\
  (forall v, declared_content_type test_case = Some v ->
             (ob_encoding ob = FormData <-> v = form_urlencoded)).
Proof.
  intros H.
  apply build_inv in H as (tcd & req & path & m & hs & -> & Hreq & Hp & Hm & -> & Ho).
  unfold declared_content_type, form_urlencoded. simpl. rewrite Hreq. simpl.
  assert (Henc : forall x,
             (if is_str "application/x-www-form-urlencoded" x
              then FormData else JsonDocument) = FormData <->
             x = PStr "application/x-www-form-urlencoded").
  { intros x. rewrite <- is_str_true. destruct (is_str _ x); split;
      try reflexivity; discriminate. }
  destruct Ho as [(Hh & Ht & -> & _)
                 |[(Hh & Ht & first & Hi & -> & _)
                  |[(Hh & Hc & _)
                   |(hs0 & first & Hh & Hmem & Ht & Hi & -> & _)]]];
    rewrite Hh; simpl.
  - split; [|discriminate]. intros _. rewrite Ht.
    split; [discriminate | intros [? _]; discriminate].
  - split; [|discriminate]. intros _. rewrite Hi, Henc.
    split; [intros ->; auto | intros [_ [= ->]]; reflexivity].
  - split.
    + intros Hnone. rewrite Hnone. simpl.
      split; [discriminate|]. intros [Ht Hi].
      destruct Hc as [Hc|Hc]; [|congruence].
      unfold dict_mem in Hc. rewrite Hnone in Hc. discriminate.
    + intros v Hv. rewrite Hv. apply Henc.
  - pose proof (dict_mem_false _ _ Hmem) as Hnone. rewrite Hnone.
    split; [|discriminate]. intros _.
    rewrite dict_get_set_eq, Hi, Henc.
    split; [intros ->; auto | intros [_ [= ->]]; reflexivity].
Qed.

(** A test case without headers against an operation that consumes
    forms first. *)
Lemma content_type_decides_encoding_witness :
  exists ob,
    ob_encoding ob = FormData <->
    py_truthy (PList [form_urlencoded; PStr "application/json"]) = true /\
    py_index0 (PList [form_urlencoded; PStr "application/json"])
      = Returned form_urlencoded.
Proof.
  eexists.
  exact (proj1 (content_type_decides_encoding
                  (Demo.logging Demo.unreachable Demo.no_cases)
                  "http://localhost:8000" (Demo.case_with None 200)
                  (mkDescriptor "/items" "post" (PStr "post_/items") (PList [])
                     (PDict []) (PDict [])
                     (PList [form_urlencoded; PStr "application/json"]))
                  PNone [] _ _ eq_refl) eq_refl).
Defined.

Ltac run_build :=
  unfold build, prepare, build_request, set_header, bind, load_item,
    load_consumes, lift, deref, store, gets, modify, ret; simpl.

(** X7. Building is idempotent although it writes: once a request has
    been built, building again from the test case as it now is gives the
    same request, and this time changes nothing. *)
Theorem build_is_idempotent {W : Type} (ext : externals W)
    base_url test_case operation fresh w ob s1 :
  build ext base_url (mkRunState test_case operation fresh w) = (Returned ob, s1) ->
  forall fresh' w',
    build ext base_url (mkRunState (rs_test_case s1) operation fresh' w')
    = (Returned ob, mkRunState (rs_test_case s1) operation (rs_fresh s1) w').
Proof.
  intros H fresh' w'.
  apply build_inv in H as (tcd & req & path & m & hs & -> & Hreq & Hp & Hm & -> & Ho).
  destruct Ho as [(Hh & Ht & -> & ->)
                 |[(Hh & Ht & first & Hi & -> & ->)
                  |[(Hh & Hc & ->)
                   |(hs0 & first & Hh & Hmem & Ht & Hi & -> & ->)]]]; simpl.
  - run_build. rewrite Hreq. simpl. rewrite Hp, Hm. simpl. rewrite Hh. simpl.
    rewrite Ht. reflexivity.
  - run_build. rewrite Hreq. simpl. rewrite Hp, Hm. simpl. rewrite Hh. simpl.
    rewrite Ht. simpl. rewrite Hi. reflexivity.
  - run_build. rewrite Hreq. simpl. rewrite Hp, Hm. simpl. rewrite Hh. simpl.
    rewrite Hreq. simpl. rewrite Hh. simpl.
    destruct Hc as [Hc|Hc]; rewrite Hc; simpl; rewrite ?andb_false_r; simpl;
      rewrite ?Hreq; simpl; rewrite ?Hh; reflexivity.
  - rewrite Hreq. run_build.
    repeat (progress (rewrite ?dict_get_set_eq, ?Hp, ?Hm;
                      rewrite ?(dict_get_set_neq "headers") by discriminate;
                      unfold dict_mem; simpl)).
    reflexivity.
Qed.

(** A test case with an empty [headers] mapping: built once, the mapping
    holds the injected header; built twice, the request is the same. *)
Lemma build_is_idempotent_witness :
  let ext := Demo.logging Demo.unreachable Demo.no_cases in
  let test_case := Demo.case_with (Some (PDict [])) 200 in
  let first := build ext "http://localhost:8000"
                 (mkRunState test_case Demo.op_json PNone []) in
  exists ob s1,
    first = (Returned ob, s1) /\
    build ext "http://localhost:8000"
      (mkRunState (rs_test_case s1) Demo.op_json PNone [])
    = (Returned ob, mkRunState (rs_test_case s1) Demo.op_json (rs_fresh s1) []).
Proof.
  simpl. do 2 eexists. split; [reflexivity|].
  exact (build_is_idempotent (Demo.logging Demo.unreachable Demo.no_cases)
           "http://localhost:8000" (Demo.case_with (Some (PDict [])) 200)
           Demo.op_json PNone [] _ _ eq_refl PNone []).
Defined.

(* ================================================================== *)
(** ** More on [run_test_case]: what escapes, what is caught, what
       comes back *)
(* ================================================================== *)

Section TryBlock.
Context {W : Type} (ext : externals W).

Lemma verify_state resp (s : run_state W) r s' :
  verify resp s = (r, s') -> s' = s.
Proof.
  unfold verify, bind, lift, load_item, ret.
  repeat match goal with
         | |- (match ?x with _ => _ end) = _ -> _ => destruct x; simpl
         end;
    intros H; now injection H.
Qed.

Lemma on_exception_state e (s : run_state W) r s' :
  on_exception e s = (r, s') -> s' = s.
Proof.
  unfold on_exception, bind, load_item, ret.
  destruct (py_getitem (rs_test_case s) "test_name"); intros H; now injection H.
Qed.

(** What [verify] returns, when it returns. *)
Lemma verify_returns resp (s : run_state W) result s' :
  verify resp s = (Returned result, s') ->
  exists test_name expected_status expected_body actual_body,
    py_getitem (rs_test_case s) "test_name" = Returned test_name /\
    result = verdict_result test_name
               (py_eq_int (status_code resp) expected_status)
               expected_status (status_code resp) expected_body actual_body.
Proof.
  unfold verify, bind, lift, load_item, ret.
  destruct (if String.eqb (text resp) EmptyString then _ else _) as [ab|];
    [|discriminate].
  destruct (py_getitem (rs_test_case s) "expected_response") as [er|];
    [|discriminate].
  destruct (py_getitem er "status_code") as [es|]; [|discriminate].
  destruct (py_get er "body" PNone) as [eb|]; [|discriminate].
  destruct (py_getitem (rs_test_case s) "test_name") as [name|]; [|discriminate].
  intros H. injection H as <- _. exists name, es, eb, ab. split; reflexivity.
Qed.

(** What the [except] branch returns, when it returns. *)
Lemma on_exception_returns e (s : run_state W) result s' :
  on_exception e s = (Returned result, s') ->
  exists test_name,
    py_getitem (rs_test_case s) "test_name" = Returned test_name /\
    result = failure_result test_name e.
Proof.
  unfold on_exception, bind, load_item, ret.
  destruct (py_getitem (rs_test_case s) "test_name") as [name|]; [|discriminate].
  intros H. injection H as <- _. exists name. split; reflexivity.
Qed.

(** Without a [test_name] neither [verify] nor the [except] branch can
    return. *)
Lemma verify_without_name resp (s : run_state W) e0 :
  py_getitem (rs_test_case s) "test_name" = Raised e0 ->
  exists e, verify resp s = (Raised e, s).
Proof.
  intros Hname. unfold verify, bind, lift, load_item, ret. rewrite Hname.
  repeat match goal with
         | |- exists e, (match ?x with _ => _ end) = _ => destruct x; simpl
         end;
    eexists; reflexivity.
Qed.

Lemma on_exception_without_name e (s : run_state W) e0 :
  py_getitem (rs_test_case s) "test_name" = Raised e0 ->
  on_exception e s = (Raised e0, s).
Proof.
  intros Hname. unfold on_exception, bind, load_item. now rewrite Hname.
Qed.

(** The [try] statement writes neither the test case nor the operation. *)
Lemma try_block_objects p s r s' :
  try_block ext p s = (r, s') ->
  rs_test_case s' = rs_test_case s /\ rs_operation s' = rs_operation s.
Proof.
  unfold try_block, try_except, bind at 1.
  destruct (build_request p s) as [[ob|e] s0] eqn:Hb;
    apply build_request_state in Hb; subst s0.
  - unfold bind, send.
    destruct (requests_request ext ob (rs_world s)) as [[resp|e] w1]; simpl.
    + destruct (verify resp _) as [[res|e] s2] eqn:Hv;
        apply verify_state in Hv; subst s2.
      * intros H. injection H as _ <-. split; reflexivity.
      * intros H. apply on_exception_state in H. subst s'. split; reflexivity.
    + intros H. apply on_exception_state in H. subst s'. split; reflexivity.
  - intros H. apply on_exception_state in H. subst s'. split; reflexivity.
Qed.

End TryBlock.

(** X4. A test case without [request], or whose request has no [path]
    or no [method], makes [run_test_case] raise the [KeyError] of the
    first such key instead of returning a failed result: the lookups
    stand before the [try].  Nothing has been sent and the test case is
    as it was. *)
Theorem missing_request_key_escapes {W : Type} (ext : externals W)
    base_url test_case operation w k :
  first_missing_key test_case = Some k ->
  run_test_case ext base_url test_case operation w
  = (Raised (KeyError (repr_key k)), test_case, w).
Proof.
  unfold first_missing_key, run_test_case, run_test_case_body, prepare, bind,
    load_item, lift.
  destruct test_case as [| | | | | |tc]; try discriminate. simpl.
  destruct (dict_get "request" tc) as [request|]; simpl.
  - destruct request as [| | | | | |req]; try discriminate. simpl.
    destruct (dict_get "path" req) as [path|]; simpl.
    + destruct (dict_get "method" req) as [m|]; simpl; [discriminate|].
      intros [= <-]. reflexivity.
    + intros [= <-]. reflexivity.
  - intros [= <-]. reflexivity.
Qed.

(** A test case whose request has a method but no path. *)
Lemma missing_request_key_escapes_witness :
  run_test_case (Demo.logging Demo.unreachable Demo.no_cases)
    "http://localhost:8000"
    (PDict [("test_name", PStr "no path");
            ("request", PDict [("method", PStr "GET")])])
    Demo.op_json []
  = (Raised (KeyError "'path'"),
     PDict [("test_name", PStr "no path");
            ("request", PDict [("method", PStr "GET")])],
     []).
Proof.
  exact (missing_request_key_escapes
           (Demo.logging Demo.unreachable Demo.no_cases) "http://localhost:8000"
           (PDict [("test_name", PStr "no path");
                   ("request", PDict [("method", PStr "GET")])])
           Demo.op_json [] "path" eq_refl).
Defined.

(** X5. A test case without [test_name] never gets a result: once its
    request is built the call is made, and whatever the service does,
    returning or raising, [run_test_case] raises [KeyError('test_name')],
    because the [except] branch reads the name too. *)
Theorem missing_test_name_escapes {W : Type} (ext : externals W)
    base_url test_case operation w ob s1 :
  build ext base_url (mkRunState test_case operation PNone w) = (Returned ob, s1) ->
  field "test_name" test_case = None ->
  run_test_case ext base_url test_case operation w
  = (Raised (KeyError "'test_name'"), rs_test_case s1,
     snd (requests_request ext ob w)).
Proof.
  intros Hbuilt Hname.
  assert (Hraise : py_getitem (rs_test_case s1) "test_name"
                   = Raised (KeyError "'test_name'")).
  { rewrite (built_getitem ext _ _ _ _ _ _ Hbuilt) by discriminate.
    apply build_inv in Hbuilt as (tcd & ? & ? & ? & ? & -> & _).
    simpl in *. now rewrite Hname. }
  unfold run_test_case.
  rewrite (run_after_build ext _ _ _ _ Hbuilt).
  unfold try_except, bind, send.
  rewrite (built_world ext _ _ _ _ _ _ Hbuilt).
  destruct (requests_request ext ob w) as [[resp|e] w1]; simpl.
  - destruct (verify_without_name resp
                (mkRunState (rs_test_case s1) (rs_operation s1) (rs_fresh s1) w1)
                _ Hraise) as [e He].
    rewrite He. rewrite on_exception_without_name with (e0 := KeyError "'test_name'");
      [reflexivity | exact Hraise].
  - rewrite on_exception_without_name with (e0 := KeyError "'test_name'");
      [reflexivity | exact Hraise].
Qed.

(** A nameless test case against a service that answers 200. *)
Lemma missing_test_name_escapes_witness :
  exists tc' w',
    run_test_case
      (Demo.logging (Demo.answers 200 EmptyString (Returned PNone)) Demo.no_cases)
      "http://localhost:8000"
      (PDict [("request", PDict [("method", PStr "GET"); ("path", PStr "/health")]);
              ("expected_response", PDict [("status_code", PInt 200)])])
      Demo.op_json []
    = (Raised (KeyError "'test_name'"), tc', w').
Proof.
  do 2 eexists.
  exact (missing_test_name_escapes
           (Demo.logging (Demo.answers 200 EmptyString (Returned PNone)) Demo.no_cases)
           "http://localhost:8000"
           (PDict [("request", PDict [("method", PStr "GET"); ("path", PStr "/health")]);
                   ("expected_response", PDict [("status_code", PInt 200)])])
           Demo.op_json [] _ _ eq_refl eq_refl).
Defined.

(** X6. When a response is obtained and its body is empty or parses, but
    reading [test_case['expected_response']['status_code']] raises (a key
    is absent, or [expected_response] is not an object), the exception is
    caught: the result is the failure result carrying its message, with
    [passed = False] whatever status the service answered. *)
Theorem unreadable_expectation_is_failure {W : Type} (ext : externals W)
    base_url test_case operation w ob s1 resp w' test_name e :
  build ext base_url (mkRunState test_case operation PNone w) = (Returned ob, s1) ->
  requests_request ext ob w = (Returned resp, w') ->
  (text resp = EmptyString \/ exists body, json resp = Returned body) ->
  field "test_name" test_case = Some test_name ->
  (expected <- py_getitem test_case "expected_response" ;;
   py_getitem expected "status_code")%outcome = Raised e ->
  run_test_case ext base_url test_case operation w
  = (Returned (failure_result test_name e), rs_test_case s1, w').
Proof.
  intros Hbuilt Hsend Hbody Hname Hexp. unfold run_test_case.
  rewrite (run_after_build ext _ _ _ _ Hbuilt).
  unfold try_except, bind, send.
  rewrite (built_world ext _ _ _ _ _ _ Hbuilt), Hsend. simpl.
  unfold verify, bind, lift, load_item, ret. simpl.
  rewrite !(built_getitem ext _ _ _ _ _ _ Hbuilt) by discriminate.
  assert (Hab : exists ab,
             (if String.eqb (text resp) EmptyString
              then Returned PNone else json resp) = Returned ab).
  { destruct Hbody as [->|[body Hb]]; [now exists PNone|].
    destruct (String.eqb (text resp) EmptyString); eauto. }
  destruct Hab as [ab ->].
  unfold obind in Hexp.
  destruct (py_getitem test_case "expected_response") as [er|e1].
  - rewrite Hexp. unfold on_exception, bind, load_item. simpl.
    rewrite (built_getitem ext _ _ _ _ _ _ Hbuilt) by discriminate.
    now rewrite (getitem_field _ _ _ Hname).
  - injection Hexp as ->. unfold on_exception, bind, load_item. simpl.
    rewrite (built_getitem ext _ _ _ _ _ _ Hbuilt) by discriminate.
    now rewrite (getitem_field _ _ _ Hname).
Qed.

(** A test case that expects nothing, against a service that answers
    200. *)
Lemma unreadable_expectation_is_failure_witness :
  exists tc' w',
    run_test_case
      (Demo.logging (Demo.answers 200 EmptyString (Returned PNone)) Demo.no_cases)
      "http://localhost:8000"
      (PDict [("test_name", PStr "health");
              ("request", PDict [("method", PStr "GET"); ("path", PStr "/health")])])
      Demo.op_json []
    = (Returned (failure_result (PStr "health") (KeyError "'expected_response'")),
       tc', w').
Proof.
  do 2 eexists.
  eapply (unreadable_expectation_is_failure
            (Demo.logging (Demo.answers 200 EmptyString (Returned PNone)) Demo.no_cases)
            "http://localhost:8000"
            (PDict [("test_name", PStr "health");
                    ("request", PDict [("method", PStr "GET"); ("path", PStr "/health")])])
            Demo.op_json [] _ _ _ _ _ _ eq_refl eq_refl);
    [left; reflexivity | reflexivity | reflexivity].
Defined.

(** X9. Whenever [run_test_case] returns, the result has one of two
    shapes: the six-field verdict, or [test_name], [passed = False] and
    [error].  So the result always has a boolean [passed] (which [main]
    subscripts), and an [error] always comes with [passed = False] and
    without status fields. *)
Theorem result_has_one_of_two_shapes {W : Type} (ext : externals W)
    base_url test_case operation w result :
  fst (fst (run_test_case ext base_url test_case operation w)) = Returned result ->
  (exists test_name expected_status actual_status expected_body actual_body,
     result = verdict_result test_name
                (py_eq_int actual_status expected_status)
                expected_status actual_status expected_body actual_body) \/
  (exists test_name e, result = failure_result test_name e).
Proof.
  unfold run_test_case, run_test_case_body, bind at 1.
  destruct (prepare ext base_url _) as [[p|e] s0]; simpl; [|discriminate].
  unfold try_except.
  destruct (bind (build_request p) _ s0) as [[res|e] s2] eqn:Hbody; simpl.
  - intros [= <-]. left.
    unfold bind in Hbody.
    destruct (build_request p s0) as [[ob|?] s3]; [|discriminate].
    destruct (send ext ob s3) as [[resp|?] s4]; [|discriminate].
    apply verify_returns in Hbody
      as (name & es & eb & ab & _ & ->).
    now exists name, es, (status_code resp), eb, ab.
  - destruct (on_exception e s2) as [[res|e'] s3] eqn:Hh; simpl; [|discriminate].
    intros [= <-]. right.
    apply on_exception_returns in Hh as (name & _ & ->). now exists name, e.
Qed.

(** Against a service that refuses the connection the shape is the
    second one. *)
Lemma result_has_one_of_two_shapes_witness :
  (exists test_name expected_status actual_status expected_body actual_body,
     failure_result (PStr "create item") (LibraryError "Connection refused")
     = verdict_result test_name
         (py_eq_int actual_status expected_status)
         expected_status actual_status expected_body actual_body) \/
  (exists test_name e,
     failure_result (PStr "create item") (LibraryError "Connection refused")
     = failure_result test_name e).
Proof.
  exact (result_has_one_of_two_shapes
           (Demo.logging Demo.unreachable Demo.no_cases) "http://localhost:8000"
           (Demo.case_with None 200) Demo.op_json [] _ eq_refl).
Defined.

(** X11. An expected status that is not a number (a string such as
    ["200"], [None], a list, an object) equals no actual status: against
    any response whose body is empty or parses the result is a plain
    mismatch, [passed = False] with both statuses and no [error]. *)
Theorem non_numeric_expectation_never_passes {W : Type} (ext : externals W)
    base_url test_case operation w ob s1 resp w'
    test_name expected_response expected_status :
  build ext base_url (mkRunState test_case operation PNone w) = (Returned ob, s1) ->
  requests_request ext ob w = (Returned resp, w') ->
  (text resp = EmptyString \/ exists body, json resp = Returned body) ->
  field "test_name" test_case = Some test_name ->
  field "expected_response" test_case = Some expected_response ->
  field "status_code" expected_response = Some expected_status ->
  is_number expected_status = false ->
  exists result,
    fst (fst (run_test_case ext base_url test_case operation w)) = Returned result /\
    dict_get "passed" result = Some (PBool false) /\
    dict_get "expected_status" result = Some expected_status /\
    dict_get "actual_status" result = Some (PInt (status_code resp)) /\
    dict_get "error" result = None.
Proof.
  intros Hbuilt Hsend Hbody Hname Her Hes Hnum.
  erewrite (run_verdict ext _ _ _ _ _ _ Hbuilt resp w'); eauto.
  - eexists. split; [reflexivity|]. simpl.
    assert (Hne : py_eq_int (status_code resp) expected_status = false)
      by (destruct expected_status; try reflexivity; discriminate).
    rewrite Hne. repeat split.
  - destruct (String.eqb (text resp) EmptyString) eqn:E; [exact I|].
    destruct Hbody as [Ht|Hb]; [|exact Hb].
    apply String.eqb_neq in E. contradiction.
Qed.

(** The status written as a string, against a service that answers 200. *)
Lemma non_numeric_expectation_never_passes_witness :
  exists result,
    fst (fst (run_test_case
                (Demo.logging (Demo.answers 200 EmptyString (Returned PNone))
                   Demo.no_cases)
                "http://localhost:8000"
                (PDict [("test_name", PStr "health");
                        ("request",
                          PDict [("method", PStr "GET"); ("path", PStr "/health")]);
                        ("expected_response", PDict [("status_code", PStr "200")])])
                Demo.op_json [])) = Returned result /\
    dict_get "passed" result = Some (PBool false) /\
    dict_get "expected_status" result = Some (PStr "200") /\
    dict_get "actual_status" result = Some (PInt 200) /\
    dict_get "error" result = None.
Proof.
  eapply (non_numeric_expectation_never_passes
            (Demo.logging (Demo.answers 200 EmptyString (Returned PNone))
               Demo.no_cases)
            "http://localhost:8000"
            (PDict [("test_name", PStr "health");
                    ("request",
                      PDict [("method", PStr "GET"); ("path", PStr "/health")]);
                    ("expected_response", PDict [("status_code", PStr "200")])])
            Demo.op_json [] _ _ (mkResponse 200 EmptyString (Returned PNone))
            _ _ _ _ eq_refl eq_refl);
    [left; reflexivity | reflexivity | reflexivity | reflexivity | reflexivity].
Defined.

(** X16. Over a whole call, returning or raising, [run_test_case] writes
    at most the injected [Content-Type] into the test case's own headers:
    every other item of the test case, its [test_name] and
    [expected_response] among them, reads as before. *)
Theorem run_test_case_writes_only_header {W : Type} (ext : externals W)
    base_url test_case operation w :
  let test_case' := snd (fst (run_test_case ext base_url test_case operation w)) in
  (test_case' = test_case \/
   wrote_injected_header operation test_case test_case') /\
  forall k, k <> "request" ->
            py_getitem test_case' k = py_getitem test_case k.
Proof.
  unfold run_test_case.
  change (run_test_case_body ext base_url)
    with (bind (prepare ext base_url) (try_block ext)).
  set (s := mkRunState test_case operation PNone w).
  pose proof (prepare_writes ext base_url s) as Hw.
  unfold bind.
  destruct (prepare ext base_url s) as [[p|e] s0] eqn:Hp; simpl in *.
  - pose proof (keeps_prepare ext base_url _ _ _ Hp) as (_ & _ & Hk).
    destruct (try_block ext p s0) as [r s2] eqn:Ht. simpl.
    apply try_block_objects in Ht as [Htc _]. rewrite Htc.
    split; [exact Hw | exact Hk].
  - pose proof (keeps_prepare ext base_url _ _ _ Hp) as (_ & _ & Hk).
    split; [exact Hw | exact Hk].
Qed.

(* ================================================================== *)
(** ** More on [main]: generation and the run as a whole *)
(* ================================================================== *)

(** The run [main] makes on the pairing example, when it completes. *)
Lemma main_result_count_witness :
  match main Pairing.ext Pairing.spec "http://localhost:8000" [] with
  | (Returned rep, _) =>
      exists operations,
        analyze_spec Pairing.spec = Returned operations /\
        List.length (test_results rep)
          = Nat.min (List.length (all_test_cases rep)) (List.length operations)
  | (Raised _, _) => False
  end.
Proof.
  destruct (main Pairing.ext Pairing.spec "http://localhost:8000" [])
    as [[rep|e] w'] eqn:Hrun.
  - exact (main_result_count Pairing.ext Pairing.spec "http://localhost:8000"
             [] rep w' Hrun).
  - vm_compute in Hrun. discriminate Hrun.
Defined.

(** Test cases already collected stay where they are. *)
Lemma generate_all_prefix {W : Type} (ext : externals W) operations :
  forall acc w cases w1,
    generate_all ext operations acc w = (Returned cases, w1) ->
    exists cs, cases = acc ++ cs.
Proof.
  induction operations as [|op rest IH]; simpl; intros acc w cases w1 H.
  - injection H as <- _. exists []. now rewrite app_nil_r.
  - unfold bind, generate_test_case, lift in H.
    destruct (chain_invoke ext op w) as [[v|e] w0]; [|discriminate].
    destruct (py_iter v) as [items|e]; [|discriminate].
    apply IH in H as [cs ->]. exists (items ++ cs). now rewrite app_assoc.
Qed.

Lemma generate_all_app {W : Type} (ext : externals W) ops1 ops2 :
  forall acc w,
    generate_all ext (ops1 ++ ops2) acc w =
    bind (generate_all ext ops1 acc) (generate_all ext ops2) w.
Proof.
  induction ops1 as [|op rest IH]; simpl; intros acc w; [reflexivity|].
  unfold bind, generate_test_case, lift in *.
  destruct (chain_invoke ext op w) as [[v|e] w0]; [|reflexivity].
  destruct (py_iter v) as [items|e]; [|reflexivity].
  apply IH.
Qed.

(** X14. Generation is not guarded: when the generator raises for some
    operation, or answers with something that cannot be iterated (a
    number, [None]), [main] raises that exception right there.  No test
    case is executed, and the cases generated for the operations before
    are lost with the run. *)
Theorem generation_failure_aborts {W : Type} (ext : externals W)
    spec base_url w ops1 op ops2 cases1 w1 e w2 :
  analyze_spec spec = Returned (ops1 ++ op :: ops2) ->
  generate_all ext ops1 [] w = (Returned cases1, w1) ->
  (chain_invoke ext op w1 = (Raised e, w2) \/
   exists v, chain_invoke ext op w1 = (Returned v, w2) /\ py_iter v = Raised e) ->
  main ext spec base_url w = (Raised e, w2).
Proof.
  intros Hspec Hgen Hfail. unfold main, bind at 1 2, lift at 1.
  rewrite Hspec, generate_all_app. unfold bind at 1. rewrite Hgen. simpl.
  unfold bind, generate_test_case, lift.
  destruct Hfail as [->|(v & -> & ->)]; reflexivity.
Qed.

(** X13. When generation completes and the answer for the first
    operation was a single non-empty object rather than a list, [extend]
    has collected its keys: the first test case is a string, and [main]
    raises [TypeError] on its first [run_test_case], before any request. *)
Theorem object_answer_crashes_run {W : Type} (ext : externals W)
    spec base_url w op ops k v d w1 cases w2 :
  analyze_spec spec = Returned (op :: ops) ->
  chain_invoke ext op w = (Returned (PDict ((k, v) :: d)), w1) ->
  generate_all ext (op :: ops) [] w = (Returned cases, w2) ->
  main ext spec base_url w
  = (Raised (TypeError "string indices must be integers, not 'str'"), w2).
Proof.
  intros Hspec Hfirst Hgen. unfold main, bind at 1 2, lift at 1.
  rewrite Hspec, Hgen.
  simpl in Hgen. unfold bind at 1, generate_test_case in Hgen.
  rewrite Hfirst in Hgen. unfold bind, lift in Hgen. simpl in Hgen.
  apply generate_all_prefix in Hgen as [cs ->]. simpl.
  unfold bind. simpl. reflexivity.
Qed.

Lemma generate_all_singletons {W : Type} (ext : externals W) :
  (forall d w0, exists tc w1, chain_invoke ext d w0 = (Returned (PList [tc]), w1)) ->
  forall operations acc w,
  exists cs w1,
    generate_all ext operations acc w = (Returned (acc ++ cs), w1) /\
    Forall2 (generated_by ext) cs operations.
Proof.
  intros Hgen. induction operations as [|op rest IH]; simpl; intros acc w.
  - exists [], w. rewrite app_nil_r. split; [reflexivity | constructor].
  - destruct (Hgen op w) as (tc & w0 & Hop).
    destruct (IH (acc ++ [tc]) w0) as (cs & w1 & Hrest & Hall).
    exists (tc :: cs), w1. split.
    + unfold bind, generate_test_case, lift. rewrite Hop. simpl.
      rewrite Hrest, <- app_assoc. reflexivity.
    + constructor; [|exact Hall]. now exists w, w0.
Qed.

(** X15. When the generator answers every operation with a list of
    exactly one test case, positions line up: the test cases of a
    completed run stand one to one, in order, against the operations
    that produced them, and every operation gets its result. *)
Theorem one_case_each_pairs_rightly {W : Type} (ext : externals W)
    spec base_url w rep w' :
  (forall d w0, exists tc w1, chain_invoke ext d w0 = (Returned (PList [tc]), w1)) ->
  main ext spec base_url w = (Returned rep, w') ->
  exists operations,
    analyze_spec spec = Returned operations /\
    Forall2 (generated_by ext) (all_test_cases rep) operations /\
    List.length (test_results rep) = List.length operations.
Proof.
  intros Hgen. unfold main, bind, lift, ret.
  destruct (analyze_spec spec) as [operations|e]; [|discriminate].
  destruct (generate_all_singletons ext Hgen operations [] w)
    as (cs & w1 & Hcases & Hall).
  rewrite Hcases. simpl.
  destruct (run_all ext base_url (combine cs operations) [] w1)
    as [[results|e] w2] eqn:Hrun; [|discriminate].
  intros H. injection H as <- _. exists operations. simpl.
  repeat split; auto.
  apply run_all_length in Hrun. rewrite Hrun, length_combine. simpl.
  apply Forall2_length in Hall. rewrite Hall. apply Nat.min_id.
Qed.

(** The generator fails on the second operation: the run ends there,
    with nothing sent. *)
Lemma generation_failure_aborts_witness :
  main (Demo.logging Answers.service Answers.failing) Pairing.spec
    "http://localhost:8000" []
  = (Raised (LibraryError "Invalid json output"), []).
Proof.
  eapply (generation_failure_aborts
            (Demo.logging Answers.service Answers.failing) Pairing.spec
            "http://localhost:8000" [] [_] _ []);
    [reflexivity | reflexivity | left; reflexivity].
Defined.

(** The generator answers with a bare object: nothing is sent. *)
Lemma object_answer_crashes_run_witness :
  main (Demo.logging Answers.service Answers.object) Pairing.spec
    "http://localhost:8000" []
  = (Raised (TypeError "string indices must be integers, not 'str'"), []).
Proof.
  eapply (object_answer_crashes_run
            (Demo.logging Answers.service Answers.object) Pairing.spec
            "http://localhost:8000" []);
    [reflexivity | reflexivity | vm_compute; reflexivity].
Defined.

(** One case per operation, on the two operations of the pairing
    example. *)
Lemma one_case_each_pairs_rightly_witness :
  let ext := Demo.logging Answers.service Answers.single in
  match main ext Pairing.spec "http://localhost:8000" [] with
  | (Returned rep, _) =>
      exists operations,
        analyze_spec Pairing.spec = Returned operations /\
        Forall2 (generated_by ext) (all_test_cases rep) operations /\
        List.length (test_results rep) = List.length operations
  | (Raised _, _) => False
  end.
Proof.
  intros ext.
  destruct (main ext Pairing.spec "http://localhost:8000" [])
    as [[rep|e] w'] eqn:Hrun.
  - refine (one_case_each_pairs_rightly ext Pairing.spec "http://localhost:8000"
              [] rep w' _ Hrun).
    intros d w0. do 2 eexists. reflexivity.
  - vm_compute in Hrun. discriminate Hrun.
Defined.

(* ================================================================== *)
(** ** Calls made, results kept *)
(* ================================================================== *)

(** X17. [run_test_case] calls the service at most once: exactly once,
    with the request that was built, when building went through, and
    never when it did not (a missing key, headers that are not an
    object, a [consumes] that cannot be indexed).  Nothing else touches
    the world. *)
Theorem at_most_one_call {W : Type} (ext : externals W)
    base_url test_case operation w :
  snd (run_test_case ext base_url test_case operation w) =
  match build ext base_url (mkRunState test_case operation PNone w) with
  | (Returned ob, _) => snd (requests_request ext ob w)
  | (Raised _, _) => w
  end.
Proof.
  unfold run_test_case, run_test_case_body, build.
  set (s := mkRunState test_case operation PNone w).
  unfold bind at 1 4.
  destruct (prepare ext base_url s) as [[p|e] s0] eqn:Hp;
    pose proof (keeps_prepare ext base_url _ _ _ Hp) as (Hw & _); simpl in Hw.
  - unfold try_except, bind at 1.
    destruct (build_request p s0) as [[ob|e] s1] eqn:Hb;
      pose proof (build_request_state _ _ _ _ Hb); subst s1.
    + unfold bind, send. rewrite Hw.
      destruct (requests_request ext ob w) as [[resp|e] w1]; simpl.
      * destruct (verify resp _) as [[res|e] s2] eqn:Hv;
          apply verify_state in Hv; subst s2; simpl; [reflexivity|].
        destruct (on_exception e _) as [r s3] eqn:Hh.
        apply on_exception_state in Hh. subst s3. reflexivity.
      * destruct (on_exception e _) as [r s3] eqn:Hh.
        apply on_exception_state in Hh. subst s3. reflexivity.
    + destruct (on_exception e s0) as [r s3] eqn:Hh.
      apply on_exception_state in Hh. subst s3. simpl. exact Hw.
  - simpl. exact Hw.
Qed.

Lemma run_all_app {W : Type} (ext : externals W) base_url pairs1 pairs2 :
  forall acc w,
    run_all ext base_url (pairs1 ++ pairs2) acc w =
    bind (run_all ext base_url pairs1 acc) (run_all ext base_url pairs2) w.
Proof.
  induction pairs1 as [|[tc op] rest IH]; simpl; intros acc w; [reflexivity|].
  unfold bind in *. simpl.
  destruct (run_test_case ext base_url tc op w) as [[[r|e] tc'] w1];
    [apply IH | reflexivity].
Qed.

(** X18. The result loop is not guarded either: at the first test case
    whose [run_test_case] raises, the loop ends with that exception, and
    the results collected so far are not returned. *)
Theorem escaping_exception_ends_the_loop {W : Type} (ext : externals W)
    base_url pairs1 test_case operation pairs2 acc w results1 w1 e :
  run_all ext base_url pairs1 acc w = (Returned results1, w1) ->
  fst (fst (run_test_case ext base_url test_case operation w1)) = Raised e ->
  run_all ext base_url (pairs1 ++ (test_case, operation) :: pairs2) acc w
  = (Raised e, snd (run_test_case ext base_url test_case operation w1)).
Proof.
  intros H1 He. rewrite run_all_app. unfold bind. rewrite H1. simpl.
  destruct (run_test_case ext base_url test_case operation w1)
    as [[[r|e'] tc'] w2]; simpl in *; [discriminate|].
  now injection He as ->.
Qed.

(** One good test case, then one without a request. *)
Lemma escaping_exception_ends_the_loop_witness :
  run_all (Demo.logging Answers.service Demo.no_cases) "http://localhost:8000"
    ([(Pairing.case "health" "GET" "/health", Demo.op_json)]
     ++ (PDict [("test_name", PStr "broken")], Demo.op_json) :: [])
    [] []
  = (Raised (KeyError "'request'"),
     snd (run_test_case (Demo.logging Answers.service Demo.no_cases)
            "http://localhost:8000" (PDict [("test_name", PStr "broken")])
            Demo.op_json
            [mkOutbound "get" "http://localhost:8000/health"
               (PDict [("Content-Type", PStr "application/json")])
               JsonDocument PNone])).
Proof.
  eapply (escaping_exception_ends_the_loop
            (Demo.logging Answers.service Demo.no_cases) "http://localhost:8000"
            [(Pairing.case "health" "GET" "/health", Demo.op_json)]
            (PDict [("test_name", PStr "broken")]) Demo.op_json [] [] []);
    [vm_compute; reflexivity | reflexivity].
Defined.

(** X19. The results of a completed loop come one per pair, in the order
    of the pairs, after the results already there; each is what
    [run_test_case] returned for its own pair. *)
Theorem results_follow_the_pairs {W : Type} (ext : externals W)
    base_url pairs :
  forall acc w results w',
    run_all ext base_url pairs acc w = (Returned results, w') ->
    exists rs,
      results = acc ++ rs /\
      Forall2
        (fun pair r =>
           exists w0,
             fst (fst (run_test_case ext base_url (fst pair) (snd pair) w0))
             = Returned r)
        pairs rs.
Proof.
  induction pairs as [|[tc op] rest IH]; simpl; intros acc w results w' H.
  - injection H as <- _. exists []. rewrite app_nil_r. split; [reflexivity|constructor].
  - destruct (run_test_case ext base_url tc op w) as [[[r|e] tc'] w1] eqn:Hr;
      [|discriminate].
    apply IH in H as (rs & -> & Hall).
    exists (r :: rs). split; [now rewrite <- app_assoc|].
    constructor; [|exact Hall]. exists w. simpl. now rewrite Hr.
Qed.

(** Two test cases against a service that answers 200. *)
Lemma results_follow_the_pairs_witness :
  let ext := Demo.logging Answers.service Demo.no_cases in
  let pairs := [(Pairing.case "health" "GET" "/health", Demo.op_json);
                (Pairing.case "create item" "POST" "/items", Demo.op_json)] in
  match run_all ext "http://localhost:8000" pairs [] [] with
  | (Returned results, _) =>
      exists rs,
        results = [] ++ rs /\
        Forall2
          (fun pair r =>
             exists w0,
               fst (fst (run_test_case ext "http://localhost:8000"
                           (fst pair) (snd pair) w0))
               = Returned r)
          pairs rs
  | (Raised _, _) => False
  end.
Proof.
  intros ext pairs.
  destruct (run_all ext "http://localhost:8000" pairs [] [])
    as [[results|e] w'] eqn:Hrun.
  - exact (results_follow_the_pairs ext "http://localhost:8000" pairs
             [] [] results w' Hrun).
  - vm_compute in Hrun. discriminate Hrun.
Defined.

(** Splitting a string into characters loses and reorders nothing. *)
Lemma utf8_split_join s :
  (fst (utf8_split s) ++ fold_right String.append EmptyString (snd (utf8_split s)))%string
  = s.
Proof.
  induction s as [|c rest IH]; simpl; [reflexivity|].
  destruct (utf8_split rest) as [pending groups]. simpl in *.
  destruct (is_continuation c); simpl; now rewrite IH.
Qed.

Lemma utf8_chars_join s :
  fold_right String.append EmptyString (utf8_chars s) = s.
Proof.
  unfold utf8_chars. pose proof (utf8_split_join s) as H.
  destruct (utf8_split s) as [pending groups]. simpl in H.
  destruct pending; exact H.
Qed.

(** One item per character: as many as there are lead bytes. *)
Lemma utf8_split_count s :
  List.length (snd (utf8_split s)) = lead_bytes s /\
  (starts_a_character s = true -> fst (utf8_split s) = EmptyString).
Proof.
  induction s as [|c rest [IHn IHp]]; simpl; [split; reflexivity|].
  destruct (utf8_split rest) as [pending groups]. simpl in *.
  destruct (is_continuation c); simpl; split; auto; discriminate.
Qed.

Lemma chars_count s :
  starts_a_character s = true ->
  List.length (chars s) = lead_bytes s.
Proof.
  intros Hs. unfold chars, utf8_chars. rewrite length_map.
  destruct (utf8_split_count s) as [Hn Hp]. specialize (Hp Hs).
  destruct (utf8_split s) as [pending groups]. simpl in *. now subst pending.
Qed.

(** A string of two characters in three bytes iterates to two items and
    starts with its first character, not its first byte. *)
Example str_items_are_characters :
  py_iter (PStr e_acute_a) = Returned [PStr e_acute; PStr "a"] /\
  py_index0 (PStr e_acute_a) = Returned (PStr e_acute).
Proof. split; reflexivity. Qed.

(** A bare string answer contributes its characters as test cases. *)
Example string_answer_gives_its_characters :
  generate_all (Demo.logging Answers.service Answers.text) [Demo.op_json] [] []
  = (Returned [PStr e_acute; PStr "a"], []).
Proof. reflexivity. Qed.

(** X20. The test cases of a completed generation are, in operation
    order, what each operation's answer iterates to: the items of a
    list, the keys of an object, the characters of a string.  An answer
    of [n] items gives [n] test cases, an empty one gives none. *)
Theorem cases_concatenate_the_answers {W : Type} (ext : externals W)
    operations :
  forall acc w cases w',
    generate_all ext operations acc w = (Returned cases, w') ->
    exists groups,
      cases = acc ++ List.concat groups /\
      Forall2
        (fun d group =>
           exists w0 w1 answer,
             chain_invoke ext d w0 = (Returned answer, w1) /\
             py_iter answer = Returned group)
        operations groups.
Proof.
  induction operations as [|op rest IH]; simpl; intros acc w cases w' H.
  - injection H as <- _. exists []. simpl. rewrite app_nil_r.
    split; [reflexivity|constructor].
  - unfold bind, generate_test_case, lift in H.
    destruct (chain_invoke ext op w) as [[v|e] w0] eqn:Hop; [|discriminate].
    destruct (py_iter v) as [items|e] eqn:Hit; [|discriminate].
    apply IH in H as (groups & -> & Hall).
    exists (items :: groups). simpl. split; [now rewrite app_assoc|].
    constructor; [|exact Hall]. now exists w, w0, v.
Qed.

(** The generation of the pairing example: two cases, then one. *)
Lemma cases_concatenate_the_answers_witness :
  match generate_all Pairing.ext
          [mkDescriptor "/items" "post" (PStr "post_/items") (PList [])
             (PDict []) (PDict []) (PList [PStr "text/plain"]);
           mkDescriptor "/health" "get" (PStr "get_/health") (PList [])
             (PDict []) (PDict []) (PList [PStr "application/xml"])]
          [] [] with
  | (Returned cases, _) =>
      exists groups,
        cases = [] ++ List.concat groups /\
        Forall2
          (fun d group =>
             exists w0 w1 answer,
               chain_invoke Pairing.ext d w0 = (Returned answer, w1) /\
               py_iter answer = Returned group)
          [mkDescriptor "/items" "post" (PStr "post_/items") (PList [])
             (PDict []) (PDict []) (PList [PStr "text/plain"]);
           mkDescriptor "/health" "get" (PStr "get_/health") (PList [])
             (PDict []) (PDict []) (PList [PStr "application/xml"])]
          groups
  | (Raised _, _) => False
  end.
Proof.
  match goal with
  | |- match ?run with _ => _ end =>
      destruct run as [[cases|e] w'] eqn:Hrun
  end.
  - exact (cases_concatenate_the_answers Pairing.ext _ [] [] cases w' Hrun).
  - vm_compute in Hrun. discriminate Hrun.
Defined.
